(** * Microsoft Graph email checker: a shallow embedding of
      [ms-graph-email/scripts/email-check.py] and its specification.

    The script is sequential glue around three external calls (the macOS
    [security] command, one HTTP POST, one HTTP GET) followed by a printing
    loop.  We model

    - Python values produced by [json.loads] as the inductive [pyval], with
      dicts as [gmap]s keyed by strings;
    - Python [str] as the list of its Unicode code points, so that slices
      such as [[:80]] count characters exactly as Python does;
    - everything outside the script (argv, the subprocess, the two HTTP
      endpoints, the [json] parser and [repr] of compound values) as a
      record [world] of oracles;
    - effects as a writer/error monad [io]: a run yields the trace of
      observable events together with an outcome, which is a returned value,
      a [sys.exit] code, or an unhandled exception;
    - standard output as a UTF-8 stream with the strict error handler,
      Python's default on macOS, for which the script is written.  Such a
      stream takes every string except one that holds a surrogate code point.
      The script's own literals hold none, and the mailbox argument and the
      response texts are taken to hold none; the fields of a message come out
      of [json.loads], which does produce lone surrogates, so the four prints
      that show them can fail. *)

From Stdlib Require Import ZArith NArith String Ascii List Lia.
From Stdlib Require Import DecimalString.
From Stdlib Require Import Floats.SpecFloat.
From stdpp Require Import gmap list fin_maps.

Set Default Proof Using "Type".
Set Warnings "-register-all".

(** ** Strings *)

(** A Python [str] is a sequence of code points. *)
Abbreviation pystr := (list N).

(** ASCII literals of the source, as code points. *)
Fixpoint lit (s : string) : pystr :=
  match s with
  | EmptyString => []
  | String a r => N_of_ascii a :: lit r
  end.

(** The double quote, and a double-quoted literal. *)
Definition dquote : N := 34.
Definition backslash : N := 92.
Definition quoted (s : string) : pystr := dquote :: lit s ++ [dquote].

(** The non-ASCII characters of the messages. *)
Definition cross_mark : N := 0x274C.
Definition e_mail_symbol : N := 0x1F4E7.
Definition check_mark : N := 0x2705.
Definition mailbox_flag : N := 0x1F4EC.
Definition newline : N := 10.

(** [str(n)] for an integer. *)
Definition str_of_Z (z : Z) : pystr := lit (NilZero.string_of_int (Z.to_int z)).

(** The characters [str.strip()] removes: those with [str.isspace()]. *)
Definition isspace (c : N) : bool :=
  ((9 <=? c) && (c <=? 13) || (28 <=? c) && (c <=? 32)
   || (c =? 0x85) || (c =? 0xA0) || (c =? 0x1680)
   || (0x2000 <=? c) && (c <=? 0x200A)
   || (c =? 0x2028) || (c =? 0x2029) || (c =? 0x202F)
   || (c =? 0x205F) || (c =? 0x3000))%N.

Fixpoint lstrip (s : pystr) : pystr :=
  match s with
  | [] => []
  | c :: r => if isspace c then lstrip r else s
  end.

Definition strip (s : pystr) : pystr := reverse (lstrip (reverse (lstrip s))).

(** [s.replace(old, new)] for one-character [old] and [new]. *)
Definition replace_char (old new : N) (s : pystr) : pystr :=
  map (fun c => if (c =? old)%N then new else c) s.

(** ** Values *)

Inductive pyval : Type :=
| PNone
| PBool (b : bool)
| PInt (z : Z)
| PFloat (f : spec_float)
| PStr (s : pystr)
| PList (l : list pyval)
| PDict (d : gmap pystr pyval).

Abbreviation dict := (gmap pystr pyval).

(** Truth value of a Python object, as [not x] and [if x] test it. *)
Definition truthy (v : pyval) : bool :=
  match v with
  | PNone => false
  | PBool b => b
  | PInt z => negb (z =? 0)%Z
  | PFloat (S754_zero _) => false
  | PFloat _ => true
  | PStr s => negb (bool_decide (length s = 0))
  | PList l => negb (bool_decide (length l = 0))
  | PDict d => negb (bool_decide (size d = 0))
  end.

(** ** Exceptions, outcomes and events *)

Inductive exn : Type :=
| KeyError (k : pystr)
| TypeError
| AttributeError
| JSONDecodeError
| OSError
| RequestException
| UnicodeEncodeError
| ValueError
| RecursionError.

Inductive outcome (A : Type) : Type :=
| Ok (a : A)
| Exit (code : Z)
| Raise (e : exn).
Arguments Ok {A} a.
Arguments Exit {A} code.
Arguments Raise {A} e.

Inductive event : Type :=
| EvPrint (s : pystr)
| EvRun (cmd : list pystr)
| EvPost (url : pystr) (data : dict)
| EvGet (url : pystr) (headers params : dict).

(** A computation: the events it performed, in order, and how it ended. *)
Definition io (A : Type) : Type := (list event * outcome A)%type.

Definition io_ret {A} (a : A) : io A := ([], Ok a).

Definition io_bind {A B} (k : A -> io B) (m : io A) : io B :=
  match m with
  | (t, Ok a) => let '(t', r) := k a in (t ++ t', r)
  | (t, Exit c) => (t, Exit c)
  | (t, Raise e) => (t, Raise e)
  end.

#[global] Instance io_mret : MRet io := @io_ret.
#[global] Instance io_mbind : MBind io := @io_bind.

Definition raise {A} (e : exn) : io A := ([], Raise e).
Definition sys_exit {A} (code : Z) : io A := ([], Exit code).

(** [print(s)] of a line that the stream takes: the line is written. *)
Definition print (s : pystr) : io unit := ([EvPrint s], Ok tt).

(** What a UTF-8 stream takes: a string without surrogate code points. *)
Definition is_surrogate (c : N) : bool := ((0xD800 <=? c) && (c <=? 0xDFFF))%N.
Definition encodable (s : pystr) : bool := forallb (fun c => negb (is_surrogate c)) s.

(** [print(s)] of a line that shows a field of a message: the whole line is
    encoded before anything is written, so a line with a surrogate raises
    [UnicodeEncodeError] and writes nothing. *)
Definition print_field (s : pystr) : io unit :=
  if encodable s then print s else raise UnicodeEncodeError.

Definition trace {A} (m : io A) : list event := fst m.
Definition result {A} (m : io A) : outcome A := snd m.

(** What the process reports to its parent: 0 after a normal return, the
    [sys.exit] argument, or 1 after an unhandled exception. *)
Definition exit_status {A} (m : io A) : Z :=
  match result m with
  | Ok _ => 0
  | Exit c => c
  | Raise _ => 1
  end.

(** The strings handed to [print], in order. *)
Definition printed {A} (m : io A) : list pystr :=
  omap (fun e => match e with EvPrint s => Some s | _ => None end) (trace m).

Definition is_request (e : event) : bool :=
  match e with EvPost _ _ | EvGet _ _ _ => true | _ => false end.
Definition is_lookup (e : event) : bool :=
  match e with EvRun _ => true | _ => false end.
Definition is_get (e : event) : bool :=
  match e with EvGet _ _ _ => true | _ => false end.

(** ** The world outside the script *)

(** [subprocess.CompletedProcess], as far as the script reads it. *)
Record completed : Type := { returncode : Z; stdout : pystr }.

(** [requests.Response]: [json] is what [response.json()] returns, [None]
    when it raises a decode error. *)
Record response : Type :=
  { status_code : Z; text : pystr; json : option pyval }.

Record world : Type := {
  argv : list pystr;
  subprocess_run : list pystr -> exn + completed;
  requests_post : pystr -> dict -> exn + response;
  requests_get : pystr -> dict -> dict -> exn + response;
  (** [json.loads]: the parsed value, or the exception it raises, which is
      [JSONDecodeError] for text that is not JSON, and can be [ValueError] or
      [RecursionError] for JSON with very long numbers or very deep nesting. *)
  json_loads : pystr -> exn + pyval;
  (** [str()] of floats, lists and dicts. *)
  py_repr : pyval -> pystr
}.

Definition run (w : world) (cmd : list pystr) : io completed :=
  match subprocess_run w cmd with
  | inr r => ([EvRun cmd], Ok r)
  | inl e => ([EvRun cmd], Raise e)
  end.

Definition post (w : world) (url : pystr) (data : dict) : io response :=
  match requests_post w url data with
  | inr r => ([EvPost url data], Ok r)
  | inl e => ([EvPost url data], Raise e)
  end.

Definition get (w : world) (url : pystr) (headers params : dict) : io response :=
  match requests_get w url headers params with
  | inr r => ([EvGet url headers params], Ok r)
  | inl e => ([EvGet url headers params], Raise e)
  end.

Definition loads (w : world) (s : pystr) : io pyval :=
  match json_loads w s with
  | inr v => mret v
  | inl e => raise e
  end.

Definition response_json (r : response) : io pyval :=
  match json r with
  | Some v => mret v
  | None => raise JSONDecodeError
  end.

(** ** Operations on values *)

(** What an f-string puts in place of [{v}]. *)
Definition py_str (w : world) (v : pyval) : pystr :=
  match v with
  | PStr s => s
  | PNone => lit "None"
  | PBool true => lit "True"
  | PBool false => lit "False"
  | PInt z => str_of_Z z
  | _ => py_repr w v
  end.

(** [v[k]] for a string key [k]. *)
Definition subscript (v : pyval) (k : pystr) : io pyval :=
  match v with
  | PDict d =>
      match d !! k with
      | Some x => mret x
      | None => raise (KeyError k)
      end
  | _ => raise TypeError
  end.

(** Looking up the bound method [v.get]. *)
Definition get_method (v : pyval) : io dict :=
  match v with
  | PDict d => mret d
  | _ => raise AttributeError
  end.

(** [d.get(k, dflt)] once the method is bound. *)
Definition dict_get (d : dict) (k : pystr) (dflt : pyval) : pyval :=
  default dflt (d !! k).

(** [v[:n]].  Slicing a dict is reported as [TypeError] (unhashable slice), as
    Python does before 3.12. *)
Definition slice_to (n : nat) (v : pyval) : io pyval :=
  match v with
  | PStr s => mret (PStr (take n s))
  | PList l => mret (PList (take n l))
  | _ => raise TypeError
  end.

(** [v.replace(old, new)]. *)
Definition replace_method (old new : N) (v : pyval) : io pyval :=
  match v with
  | PStr s => mret (PStr (replace_char old new s))
  | _ => raise AttributeError
  end.

(** [len(v)]. *)
Definition py_len (v : pyval) : io Z :=
  match v with
  | PStr s => mret (Z.of_nat (length s))
  | PList l => mret (Z.of_nat (length l))
  | PDict d => mret (Z.of_nat (size d))
  | _ => raise TypeError
  end.

(** The items a [for] loop over [v] visits. *)
Definition py_iter (v : pyval) : io (list pyval) :=
  match v with
  | PList l => mret l
  | PStr s => mret (map (fun c => PStr [c]) s)
  | PDict d => mret (map (fun kv => PStr (fst kv)) (map_to_list d))
  | _ => raise TypeError
  end.

Fixpoint for_each {A} (body : A -> io unit) (l : list A) : io unit :=
  match l with
  | [] => mret tt
  | x :: r => body x ;; for_each body r
  end.

(** ** The script *)

Definition security_cmd : list pystr :=
  [lit "security"; lit "find-generic-password"; lit "-s";
   lit "openclaw-microsoft365"; lit "-w"].

Definition no_credentials_help : list pystr :=
  [cross_mark :: lit " No credentials found in keychain";
   lit "   Store credentials with:";
   lit "   security add-generic-password -s " ++ quoted "openclaw-microsoft365"
     ++ lit " -a " ++ quoted "graph" ++ lit " " ++ [backslash];
   lit "     -w '{" ++ quoted "tenant_id" ++ lit ":" ++ quoted "xxx" ++ lit ","
     ++ quoted "client_id" ++ lit ":" ++ quoted "xxx" ++ lit ","
     ++ quoted "client_secret" ++ lit ":" ++ quoted "xxx" ++ lit "}' -U"].

(** [get_credentials()], lines 17-29. *)
Definition get_credentials (w : world) : io pyval :=
  result ← run w security_cmd;
  if negb (returncode result =? 0)%Z then
    for_each print no_credentials_help ;;
    sys_exit 1
  else
    loads w (strip (stdout result)).

Definition token_url (w : world) (tenant : pyval) : pystr :=
  lit "https://login.microsoftonline.com/" ++ py_str w tenant
    ++ lit "/oauth2/v2.0/token".

Definition token_form (client_id client_secret : pyval) : dict :=
  {[ lit "grant_type" := PStr (lit "client_credentials");
     lit "client_id" := client_id;
     lit "client_secret" := client_secret;
     lit "scope" := PStr (lit "https://graph.microsoft.com/.default") ]}.

(** [get_token(creds)], lines 32-46. *)
Definition get_token (w : world) (creds : pyval) : io pyval :=
  tenant ← subscript creds (lit "tenant_id");
  client_id ← subscript creds (lit "client_id");
  client_secret ← subscript creds (lit "client_secret");
  response ← post w (token_url w tenant) (token_form client_id client_secret);
  if negb (status_code response =? 200)%Z then
    print (cross_mark :: lit " Auth failed: " ++ text response) ;;
    sys_exit 1
  else
    body ← response_json response;
    subscript body (lit "access_token").

Definition messages_url (mailbox : pystr) : pystr :=
  lit "https://graph.microsoft.com/v1.0/users/" ++ mailbox ++ lit "/messages".

Definition auth_headers (w : world) (token : pyval) : dict :=
  {[ lit "Authorization" := PStr (lit "Bearer " ++ py_str w token) ]}.

Definition base_params (limit : Z) : dict :=
  {[ lit "$top" := PInt limit;
     lit "$orderby" := PStr (lit "receivedDateTime desc");
     lit "$select" := PStr (lit "subject,from,receivedDateTime,isRead,bodyPreview") ]}.

Definition query_params (unread_only : bool) (limit : Z) : dict :=
  if unread_only
  then <[ lit "$filter" := PStr (lit "isRead eq false") ]> (base_params limit)
  else base_params limit.

(** [check_emails(mailbox, token, unread_only=True, limit=10)], lines 49-72. *)
Definition check_emails (w : world) (mailbox : pystr) (token : pyval)
    (unread_only : bool) (limit : Z) : io pyval :=
  let headers := auth_headers w token in
  let params := query_params unread_only limit in
  response ← get w (messages_url mailbox) headers params;
  if negb (status_code response =? 200)%Z then
    print (cross_mark :: lit " Failed to get emails: " ++ text response) ;;
    sys_exit 1
  else
    body ← response_json response;
    body_get ← get_method body;
    mret (dict_get body_get (lit "value") (PList [])).

Definition rule_line : pystr := replicate 50 45%N.

(** The body of the [for email in emails] loop, lines 97-107. *)
Definition print_email (w : world) (email : pyval) : io unit :=
  from ← subscript email (lit "from");
  sender ← subscript from (lit "emailAddress");
  sender_get ← get_method sender;
  address ← subscript sender (lit "address");
  let name := dict_get sender_get (lit "name") address in
  email_get ← get_method email;
  let subject := dict_get email_get (lit "subject") (PStr (lit "(no subject)")) in
  stamp ← subscript email (lit "receivedDateTime");
  stamp16 ← slice_to 16 stamp;
  received ← replace_method 84%N 32%N stamp16;
  email_get' ← get_method email;
  preview ← slice_to 80 (dict_get email_get' (lit "bodyPreview") (PStr []));
  print_field (lit "From: " ++ py_str w name) ;;
  print_field (lit "Subject: " ++ py_str w subject) ;;
  print_field (lit "Received: " ++ py_str w received) ;;
  print_field (lit "Preview: " ++ py_str w preview ++ lit "...") ;;
  print rule_line.

Definition usage : list pystr :=
  [lit "Usage: python3 email-check.py user@domain.com";
   lit "Set your mailbox as the first argument"].

(** [sys.argv[1] if len(sys.argv) > 1 else None], line 77. *)
Definition mailbox_arg (w : world) : option pystr :=
  if (1 <? length (argv w))%nat then argv w !! 1 else None.

(** The rest of [main()] once a mailbox is known, lines 84-107. *)
Definition report (w : world) (mailbox : pystr) : io unit :=
  print (e_mail_symbol :: lit " Checking " ++ mailbox ++ lit "...") ;;
  creds ← get_credentials w;
  token ← get_token w creds;
  emails ← check_emails w mailbox token true 10;
  if negb (truthy emails) then
    print (check_mark :: lit " No unread emails")
  else
    count ← py_len emails;
    print ([newline; mailbox_flag] ++ lit " " ++ str_of_Z count
             ++ lit " unread email(s):" ++ [newline]) ;;
    items ← py_iter emails;
    for_each (print_email w) items.

(** [main()], lines 75-107: [if not mailbox] holds for [None] and for the
    empty string. *)
Definition main (w : world) : io unit :=
  match mailbox_arg w with
  | None | Some [] =>
      for_each print usage ;;
      sys_exit 1
  | Some mailbox => report w mailbox
  end.

(** ** Vocabulary of the statements *)

(** A property of every event of a run. *)
Definition always {A} (P : event -> Prop) (m : io A) : Prop := Forall P (trace m).

(** The run that only prints the usage text and exits with status 1. *)
Definition usage_run : io unit := (EvPrint <$> usage, Exit 1).

(** The query parameters carried by an event, if it is a GET. *)
Definition sends_params (q : dict) (e : event) : Prop :=
  match e with
  | EvGet _ _ params => params = q
  | _ => True
  end.

(** The lines the script prints around its requests. *)
Definition checking_line (mailbox : pystr) : pystr :=
  e_mail_symbol :: lit " Checking " ++ mailbox ++ lit "...".
Definition no_unread_line : pystr := check_mark :: lit " No unread emails".
Definition auth_failed_line (body : pystr) : pystr :=
  cross_mark :: lit " Auth failed: " ++ body.

(** A step that performs no event either yields a value or raises. *)
Definition pure_step {A} (m : io A) : Prop :=
  (exists a, m = mret a) \/ (exists e, m = raise e).

(** ** Sample worlds *)

(** A credential bundle and the JSON text that encodes it. *)
Definition bundle : dict :=
  {[ lit "tenant_id" := PStr (lit "contoso");
     lit "client_id" := PStr (lit "app");
     lit "client_secret" := PStr (lit "s3cret") ]}.

Definition bundle_text : pystr :=
  lit "{" ++ quoted "tenant_id" ++ lit ":" ++ quoted "contoso" ++ lit ","
    ++ quoted "client_id" ++ lit ":" ++ quoted "app" ++ lit ","
    ++ quoted "client_secret" ++ lit ":" ++ quoted "s3cret" ++ lit "}".

(** [json.loads] on the three texts the samples hand to it: the bundle, the
    empty object, and anything else, taken to be invalid. *)
Definition sample_loads (s : pystr) : exn + pyval :=
  if bool_decide (s = bundle_text) then inr (PDict bundle)
  else if bool_decide (s = lit "{}") then inr (PDict ∅)
  else inl JSONDecodeError.

Definition sample_world (args : list pystr) (secret : exn + completed)
    (token_reply listing_reply : exn + response) : world :=
  {| argv := args;
     subprocess_run := fun _ => secret;
     requests_post := fun _ _ => token_reply;
     requests_get := fun _ _ _ => listing_reply;
     json_loads := sample_loads;
     py_repr := fun _ => lit "<repr>" |}.

Definition sample_args : list pystr := [lit "email-check.py"; lit "me@x.com"].

Definition keychain (out : pystr) : exn + completed :=
  inr {| returncode := 0; stdout := out ++ [newline] |}.

Definition token_ok : response :=
  {| status_code := 200;
     text := lit "{" ++ quoted "access_token" ++ lit ":" ++ quoted "T" ++ lit "}";
     json := Some (PDict {[ lit "access_token" := PStr (lit "T") ]}) |}.


Definition listing_empty : response :=
  {| status_code := 200;
     text := lit "{" ++ quoted "value" ++ lit ": []}";
     json := Some (PDict {[ lit "value" := PList [] ]}) |}.



(** The message of the specification's example. *)
Definition bob_sender : dict :=
  {[ lit "name" := PStr (lit "Bob"); lit "address" := PStr (lit "bob@x.com") ]}.

Definition bob_from : dict := {[ lit "emailAddress" := PDict bob_sender ]}.

Definition bob_message : dict :=
  {[ lit "subject" := PStr (lit "Hi");
     lit "from" := PDict bob_from;
     lit "receivedDateTime" := PStr (lit "2024-01-01T12:34:56Z");
     lit "isRead" := PBool false;
     lit "bodyPreview" := PStr (lit "Hello world") ]}.

(** The same message with the sender's address removed, and with the
    timestamp removed. *)
Definition nameonly_sender : dict := {[ lit "name" := PStr (lit "Bob") ]}.

Definition nameonly_message : dict :=
  <[ lit "from" := PDict {[ lit "emailAddress" := PDict nameonly_sender ]} ]>
    bob_message.

Definition undated_message : dict := delete (lit "receivedDateTime") bob_message.

Definition happy_world (listing_reply : response) : world :=
  sample_world sample_args (keychain bundle_text) (inr token_ok) (inr listing_reply).

(** Secrets that the lookup returns with exit status 0 but that are not a
    credential bundle: text that is not JSON, and an object without fields. *)
Definition garbled_world : world :=
  sample_world sample_args (keychain (lit "not json")) (inr token_ok) (inr listing_empty).

Definition fieldless_world : world :=
  sample_world sample_args (keychain (lit "{}")) (inr token_ok) (inr listing_empty).

(** ** Vocabulary of the further properties *)

Definition is_print (e : event) : bool :=
  match e with EvPrint _ => true | _ => false end.

(** The events of a trace that reach outside the process: the lookup and the
    two requests. *)
Definition external (t : list event) : list event :=
  filter (fun e => negb (is_print e)) t.

(** Lines 90-107 of [main()]: what is done with the listing. *)
Definition present (w : world) (emails : pyval) : io unit :=
  if negb (truthy emails) then
    print (check_mark :: lit " No unread emails")
  else
    count ← py_len emails;
    print ([newline; mailbox_flag] ++ lit " " ++ str_of_Z count
             ++ lit " unread email(s):" ++ [newline]) ;;
    items ← py_iter emails;
    for_each (print_email w) items.

Definition count_line (n : Z) : pystr :=
  [newline; mailbox_flag] ++ lit " " ++ str_of_Z n
    ++ lit " unread email(s):" ++ [newline].

Definition listing_failed_line (body : pystr) : pystr :=
  cross_mark :: lit " Failed to get emails: " ++ body.

(** An outcome that, if it is a [sys.exit], is [sys.exit(1)]. *)
Definition exits_with_1 {A} (o : outcome A) : Prop :=
  forall c, o = Exit c -> c = 1%Z.

(** The world [w] started with other command-line arguments. *)
Definition with_argv (args : list pystr) (w : world) : world :=
  {| argv := args;
     subprocess_run := subprocess_run w;
     requests_post := requests_post w;
     requests_get := requests_get w;
     json_loads := json_loads w;
     py_repr := py_repr w |}.

(** ** Further sample worlds *)

(** The text of the bundle between its braces. *)
Definition bundle_fields_text : pystr :=
  quoted "tenant_id" ++ lit ":" ++ quoted "contoso" ++ lit ","
    ++ quoted "client_id" ++ lit ":" ++ quoted "app" ++ lit ","
    ++ quoted "client_secret" ++ lit ":" ++ quoted "s3cret".




(** A 200 answer of the token endpoint without a token. *)
Definition token_empty_object : response :=
  {| status_code := 200; text := lit "{}"; json := Some (PDict ∅) |}.

Definition tokenless_world : world :=
  sample_world sample_args (keychain bundle_text) (inr token_empty_object)
    (inr listing_empty).

(** A 200 answer of the listing endpoint that is not JSON. *)
Definition listing_html : response :=
  {| status_code := 200; text := lit "<html></html>"; json := None |}.



(** The message of the specification's example with a subject that is a lone
    surrogate, as the JSON text [{"subject": "\ud800", ...}] gives it. *)
Definition surrogate_message : dict :=
  <[ lit "subject" := PStr [0xD800%N] ]> bob_message.

(** * Properties *)

(** ** Laws of [io] *)

Arguments lit : simpl never.

Section io_laws.
Context {A B : Type}.
Implicit Types (m : io A) (k : A -> io B).

Lemma bind_ret a k : mret a ≫= k = k a.
Proof. unfold mret, mbind, io_mret, io_mbind, io_ret, io_bind. by destruct (k a). Qed.

Lemma bind_ok t a k : (t, Ok a) ≫= k = (t ++ trace (k a), result (k a)).
Proof. unfold mbind, io_mbind, io_bind. by destruct (k a). Qed.

Lemma bind_exit t c k : (t, Exit c) ≫= k = (t, Exit c).
Proof. done. Qed.

Lemma bind_raise t e k : (t, Raise e) ≫= k = (t, Raise e).
Proof. done. Qed.

Lemma trace_bind m k :
  trace (m ≫= k)
  = trace m ++ match result m with Ok a => trace (k a) | _ => [] end.
Proof.
  destruct m as [t [a|c|e]]; rewrite ?bind_ok; simpl; by rewrite ?app_nil_r.
Qed.

Lemma result_bind m k :
  result (m ≫= k)
  = match result m with
    | Ok a => result (k a)
    | Exit c => Exit c
    | Raise e => Raise e
    end.
Proof. destruct m as [t [a|c|e]]; by rewrite ?bind_ok. Qed.
End io_laws.

Lemma io_eta {A} (m : io A) : m = (trace m, result m).
Proof. by destruct m. Qed.

Lemma always_bind {A B} (P : event -> Prop) (m : io A) (k : A -> io B) :
  always P m -> (forall a, result m = Ok a -> always P (k a)) -> always P (m ≫= k).
Proof.
  unfold always. intros Hm Hk. rewrite trace_bind. apply Forall_app. split; [done|].
  destruct (result m) as [a|c|e] eqn:E; [by apply Hk | constructor | constructor].
Qed.

Lemma always_nil {A} (P : event -> Prop) (o : outcome A) : always P ([], o).
Proof. constructor. Qed.

Lemma for_each_print (l : list pystr) : for_each print l = (EvPrint <$> l, Ok tt).
Proof.
  induction l as [|s l IH]; [done|]. cbn [for_each]. by rewrite IH.
Qed.

(** ** Printing a field *)

Lemma print_field_ok (s : pystr) : encodable s = true -> print_field s = print s.
Proof. intros H. unfold print_field. by rewrite H. Qed.

Lemma print_field_bad (s : pystr) :
  encodable s = false -> print_field s = raise UnicodeEncodeError.
Proof. intros H. unfold print_field. by rewrite H. Qed.

Lemma always_print_field (P : event -> Prop) (s : pystr) :
  P (EvPrint s) -> always P (print_field s).
Proof. intros H. unfold print_field. destruct (encodable s); by repeat constructor. Qed.

Lemma encodable_app (a b : pystr) : encodable (a ++ b) = encodable a && encodable b.
Proof. apply forallb_app. Qed.

Lemma encodable_take (n : nat) (s : pystr) :
  encodable s = true -> encodable (take n s) = true.
Proof.
  revert n. induction s as [|c s IH]; intros [|n]; try done. cbn.
  intros [Hc Hs]%andb_prop. rewrite Hc. by apply IH.
Qed.

Lemma encodable_replace_char (old new : N) (s : pystr) :
  is_surrogate old = false -> is_surrogate new = false ->
  encodable (replace_char old new s) = encodable s.
Proof.
  intros Ho Hn. induction s as [|c s IH]; [done|].
  change (negb (is_surrogate (if (c =? old)%N then new else c))
            && encodable (replace_char old new s)
          = negb (is_surrogate c) && encodable s).
  rewrite IH. destruct (N.eqb_spec c old) as [->|]; [by rewrite Ho, Hn | done].
Qed.

(** The lines the script builds from its own literals and from numbers hold
    no surrogate, so that [print] is the whole of Python's [print] for them;
    the progress line and the two failure lines are taken by the stream
    exactly when the mailbox argument, or the response text, is. *)
Lemma encodable_lit (s : string) : encodable (lit s) = true.
Proof.
  induction s as [|a s IH]; [done|].
  change (negb (is_surrogate (N_of_ascii a)) && encodable (lit s) = true).
  rewrite IH. pose proof (N_ascii_bounded a) as Ha. unfold is_surrogate.
  destruct (N.leb_spec 0xD800 (N_of_ascii a)); [lia | done].
Qed.

Lemma print_field_lit (s : string) : print_field (lit s) = print (lit s).
Proof. apply print_field_ok, encodable_lit. Qed.

Lemma encodable_fixed_lines :
  forallb encodable (usage ++ no_credentials_help ++ [no_unread_line; rule_line])
  = true.
Proof. vm_compute. reflexivity. Qed.

Lemma encodable_count_line (n : Z) : encodable (count_line n) = true.
Proof.
  unfold count_line, str_of_Z. by rewrite !encodable_app, !encodable_lit.
Qed.

Lemma encodable_checking_line (m : pystr) :
  encodable (checking_line m) = encodable m.
Proof.
  unfold checking_line.
  change (encodable (e_mail_symbol :: lit " Checking " ++ m ++ lit "..."))
    with (encodable ([e_mail_symbol] ++ lit " Checking " ++ m ++ lit "...")).
  rewrite !encodable_app, !encodable_lit. by rewrite andb_true_r.
Qed.

Lemma encodable_failure_lines (body : pystr) :
  encodable (auth_failed_line body) = encodable body
  /\ encodable (listing_failed_line body) = encodable body.
Proof.
  unfold auth_failed_line, listing_failed_line. split.
  - change (encodable (cross_mark :: lit " Auth failed: " ++ body))
      with (encodable ([cross_mark] ++ lit " Auth failed: " ++ body)).
    by rewrite !encodable_app, !encodable_lit.
  - change (encodable (cross_mark :: lit " Failed to get emails: " ++ body))
      with (encodable ([cross_mark] ++ lit " Failed to get emails: " ++ body)).
    by rewrite !encodable_app, !encodable_lit.
Qed.

Lemma always_for_each {A} (P : event -> Prop) (body : A -> io unit) (l : list A) :
  (forall x, always P (body x)) -> always P (for_each body l).
Proof.
  intros H. induction l as [|x l IH]; cbn [for_each]; [apply always_nil|].
  apply always_bind; auto.
Qed.

(** ** Python operations at their successful and failing cases *)

Lemma subscript_Some (d : dict) k v :
  d !! k = Some v -> subscript (PDict d) k = mret v.
Proof. intros H. unfold subscript. by rewrite H. Qed.

Lemma subscript_None (d : dict) k :
  d !! k = None -> subscript (PDict d) k = raise (KeyError k).
Proof. intros H. unfold subscript. by rewrite H. Qed.

Lemma subscript_silent v k : trace (subscript v k) = [].
Proof. destruct v; try done. simpl. by destruct (_ !! _). Qed.

Lemma subscript_Ok_inv v k t x :
  subscript v k = (t, Ok x) -> exists d : dict, v = PDict d /\ d !! k = Some x /\ t = [].
Proof.
  destruct v; try done. simpl. destruct (d !! k) eqn:E; [|done].
  intros [= <- <-]. eauto.
Qed.

(** ** Command line (lines 75-82) *)

Lemma main_usage w :
  mailbox_arg w = None \/ mailbox_arg w = Some [] -> main w = usage_run.
Proof.
  intros [H|H]; unfold main; rewrite H, for_each_print; done.
Qed.

Lemma mailbox_arg_short w : length (argv w) <= 1 -> mailbox_arg w = None.
Proof.
  intros H. unfold mailbox_arg.
  destruct (Nat.ltb_spec 1 (length (argv w))); [lia | done].
Qed.

Lemma mailbox_arg_lookup w m : argv w !! 1 = Some m -> mailbox_arg w = Some m.
Proof.
  intros H. unfold mailbox_arg.
  destruct (Nat.ltb_spec 1 (length (argv w))) as [_|Hle]; [done|].
  apply lookup_lt_Some in H. lia.
Qed.

(** C8. Invoked without a mailbox argument, the program prints the two usage
    lines and exits with status 1; its trace holds no secret-store lookup and
    no HTTP request. *)
Theorem no_mailbox_prints_usage w :
  length (argv w) <= 1 ->
  main w = ([EvPrint (lit "Usage: python3 email-check.py user@domain.com");
             EvPrint (lit "Set your mailbox as the first argument")], Exit 1)
  /\ exit_status (main w) = 1%Z
  /\ filter is_lookup (trace (main w)) = []
  /\ filter is_request (trace (main w)) = [].
Proof.
  intros H. rewrite main_usage by (left; by apply mailbox_arg_short). done.
Qed.

(** C10. An empty first argument is treated exactly as a missing one: the run
    equals the run of any invocation without a mailbox argument, that is, the
    usage text, exit status 1, no lookup and no request. *)
Theorem empty_mailbox_same_as_missing w w' :
  argv w !! 1 = Some [] ->
  length (argv w') <= 1 ->
  main w = main w'
  /\ printed (main w) = usage
  /\ exit_status (main w) = 1%Z
  /\ filter is_lookup (trace (main w)) = []
  /\ filter is_request (trace (main w)) = [].
Proof.
  intros H H'.
  rewrite (main_usage w) by (right; by apply mailbox_arg_lookup).
  rewrite (main_usage w') by (left; by apply mailbox_arg_short). done.
Qed.

(** ** Token exchange (lines 32-46) *)

Lemma post_inr w url data r :
  requests_post w url data = inr r -> post w url data = ([EvPost url data], Ok r).
Proof. intros H. unfold post. by rewrite H. Qed.

Lemma get_inr w url headers params r :
  requests_get w url headers params = inr r ->
  get w url headers params = ([EvGet url headers params], Ok r).
Proof. intros H. unfold get. by rewrite H. Qed.


(** The request [get_token] sends once the three fields are found. *)
Lemma get_token_request (w : world) (d : dict) tenant client_id client_secret :
  d !! lit "tenant_id" = Some tenant ->
  d !! lit "client_id" = Some client_id ->
  d !! lit "client_secret" = Some client_secret ->
  get_token w (PDict d) =
    (response ← post w (token_url w tenant) (token_form client_id client_secret);
     if negb (status_code response =? 200)%Z then
       print (cross_mark :: lit " Auth failed: " ++ text response) ;;
       sys_exit 1
     else
       body ← response_json response;
       subscript body (lit "access_token")).
Proof.
  intros Ht Hc Hs. unfold get_token.
  rewrite (subscript_Some _ _ _ Ht), bind_ret.
  rewrite (subscript_Some _ _ _ Hc), bind_ret.
  by rewrite (subscript_Some _ _ _ Hs), bind_ret.
Qed.

(** C1. With a credential bundle holding the three fields, a token endpoint
    answering 200 with a JSON object that has an [access_token] field makes
    [get_token] return exactly that field's value (the string [T] when the
    body is the object with [access_token] bound to [T]), after the single
    POST. *)
Theorem get_token_returns_access_token
    (w : world) (d body : dict) tenant client_id client_secret r tok :
  d !! lit "tenant_id" = Some tenant ->
  d !! lit "client_id" = Some client_id ->
  d !! lit "client_secret" = Some client_secret ->
  requests_post w (token_url w tenant) (token_form client_id client_secret) = inr r ->
  status_code r = 200%Z ->
  json r = Some (PDict body) ->
  body !! lit "access_token" = Some tok ->
  get_token w (PDict d)
  = ([EvPost (token_url w tenant) (token_form client_id client_secret)], Ok tok).
Proof.
  intros Ht Hc Hs Hpost H200 Hjson Htok.
  rewrite (get_token_request _ _ _ _ _ Ht Hc Hs).
  rewrite (post_inr _ _ _ _ Hpost), bind_ok. cbn beta.
  rewrite H200. cbn [Z.eqb Pos.eqb negb].
  unfold response_json. rewrite Hjson, bind_ret.
  by rewrite (subscript_Some _ _ _ Htok).
Qed.


Lemma main_report w m : mailbox_arg w = Some m -> m <> [] -> main w = report w m.
Proof. intros H Hm. unfold main. rewrite H. by destruct m. Qed.

(** ** Inversion of successful steps *)

Lemma bind_Ok_inv {A B} (m : io A) (k : A -> io B) t b :
  m ≫= k = (t, Ok b) ->
  exists a t1 t2, m = (t1, Ok a) /\ k a = (t2, Ok b) /\ t = t1 ++ t2.
Proof.
  destruct m as [t1 [a|c|e]]; [|done..]. rewrite bind_ok. intros [= <- Hr].
  exists a, t1, (trace (k a)). split; [done|]. split; [|done].
  rewrite <- Hr. apply io_eta.
Qed.

Lemma get_credentials_cases w :
  get_credentials w =
    match subprocess_run w security_cmd with
    | inl e => ([EvRun security_cmd], Raise e)
    | inr c =>
        if negb (returncode c =? 0)%Z
        then (EvRun security_cmd :: (EvPrint <$> no_credentials_help), Exit 1)
        else match json_loads w (strip (stdout c)) with
             | inr v => ([EvRun security_cmd], Ok v)
             | inl e => ([EvRun security_cmd], Raise e)
             end
    end.
Proof.
  unfold get_credentials, run. destruct (subprocess_run w security_cmd) as [e|c]; [done|].
  rewrite bind_ok. cbn beta. destruct (negb _).
  - by rewrite for_each_print.
  - unfold loads. by destruct (json_loads _ _).
Qed.


Lemma get_token_Ok_inv w creds t tok :
  get_token w creds = (t, Ok tok) -> exists url data, t = [EvPost url data].
Proof.
  unfold get_token. intros H.
  apply bind_Ok_inv in H as (tenant & t1 & t1' & H1 & H & ->).
  apply subscript_Ok_inv in H1 as (d & -> & _ & ->).
  apply bind_Ok_inv in H as (cid & t2 & t2' & H2 & H & ->).
  apply subscript_Ok_inv in H2 as (? & _ & _ & ->).
  apply bind_Ok_inv in H as (cs & t3 & t3' & H3 & H & ->).
  apply subscript_Ok_inv in H3 as (? & _ & _ & ->).
  apply bind_Ok_inv in H as (r & t4 & t4' & H4 & H & ->).
  unfold post in H4. destruct (requests_post _ _ _) as [|r']; [done|].
  injection H4 as <- <-. destruct (negb _); [done|].
  apply bind_Ok_inv in H as (body & t5 & t5' & H5 & H & ->).
  unfold response_json in H5. destruct (json r'); [|done]. injection H5 as <- <-.
  apply subscript_Ok_inv in H as (? & _ & _ & ->). eauto.
Qed.

(** ** Mailbox listing (lines 49-72) *)

Lemma check_emails_cases w mailbox token unread_only limit :
  check_emails w mailbox token unread_only limit =
    let url := messages_url mailbox in
    let headers := auth_headers w token in
    let params := query_params unread_only limit in
    match requests_get w url headers params with
    | inl e => ([EvGet url headers params], Raise e)
    | inr r =>
        if negb (status_code r =? 200)%Z
        then ([EvGet url headers params;
               EvPrint (cross_mark :: lit " Failed to get emails: " ++ text r)],
              Exit 1)
        else match json r with
             | None => ([EvGet url headers params], Raise JSONDecodeError)
             | Some (PDict body) =>
                 ([EvGet url headers params],
                  Ok (dict_get body (lit "value") (PList [])))
             | Some _ => ([EvGet url headers params], Raise AttributeError)
             end
    end.
Proof.
  unfold check_emails, get. cbn zeta.
  destruct (requests_get _ _ _ _) as [e|r]; [done|].
  rewrite bind_ok. cbn beta. destruct (negb _); [done|].
  unfold response_json. destruct (json r) as [[]|]; done.
Qed.

Lemma check_emails_Ok_inv w mailbox token unread_only limit t v :
  check_emails w mailbox token unread_only limit = (t, Ok v) ->
  t = [EvGet (messages_url mailbox) (auth_headers w token)
         (query_params unread_only limit)].
Proof.
  rewrite check_emails_cases. cbn zeta.
  destruct (requests_get _ _ _ _) as [e|r]; [done|].
  destruct (negb _); [done|]. destruct (json r) as [[]|]; try done.
  by intros [= <- _].
Qed.


Lemma query_params_unread limit :
  query_params true limit !! lit "$filter" = Some (PStr (lit "isRead eq false"))
  /\ query_params true limit !! lit "$top" = Some (PInt limit)
  /\ query_params true limit !! lit "$orderby"
     = Some (PStr (lit "receivedDateTime desc"))
  /\ query_params true limit !! lit "$select"
     = Some (PStr (lit "subject,from,receivedDateTime,isRead,bodyPreview"))
  /\ dom (query_params true limit)
     = {[ lit "$filter"; lit "$top"; lit "$orderby"; lit "$select" ]}.
Proof. repeat split; vm_compute; reflexivity. Qed.

Section always_params.
Variable q : dict.
Local Abbreviation P := (sends_params q).

Lemma always_silent {A} (m : io A) : trace m = [] -> always P m.
Proof. unfold always. intros ->. constructor. Qed.

Lemma always_print s : always P (print s).
Proof. repeat constructor. Qed.

Lemma always_get_credentials w : always P (get_credentials w).
Proof.
  rewrite get_credentials_cases. unfold always.
  destruct (subprocess_run _ _) as [e|c]; [by repeat constructor|].
  destruct (negb _); [|destruct (json_loads _ _); by repeat constructor].
  cbn [trace fst]. constructor; [done|].
  apply Forall_fmap, Forall_true. done.
Qed.

Lemma always_get_token w creds : always P (get_token w creds).
Proof.
  unfold get_token.
  do 3 (apply always_bind; [apply always_silent, subscript_silent | intros ? _]).
  apply always_bind.
  { unfold post. destruct (requests_post _ _ _); by repeat constructor. }
  intros r _. destruct (negb _); [by repeat constructor|].
  apply always_bind.
  { unfold response_json. destruct (json r); by repeat constructor. }
  intros ? _. apply always_silent, subscript_silent.
Qed.

Lemma always_print_email w email : always P (print_email w email).
Proof.
  assert (Hget : forall v, always P (get_method v)) by (intros []; constructor).
  assert (Hslice : forall n v, always P (slice_to n v)) by (intros ? []; constructor).
  assert (Hrepl : forall a b v, always P (replace_method a b v))
    by (intros ?? []; constructor).
  unfold print_email.
  repeat first
    [ apply always_print
    | by apply always_print_field
    | apply always_silent, subscript_silent
    | apply Hget | apply Hslice | apply Hrepl
    | apply always_bind; [|intros ? _] ].
Qed.
End always_params.

(** C2. In unread-only mode the GET of [check_emails] carries exactly the four
    query parameters [$filter] = 'isRead eq false', [$top] = the limit,
    [$orderby] = 'receivedDateTime desc' and [$select] =
    'subject,from,receivedDateTime,isRead,bodyPreview'; the GET is the first
    event of every call; and every GET of every run of [main] carries them
    with limit 10. *)
Theorem unread_only_query_params :
  (forall limit,
     query_params true limit !! lit "$filter" = Some (PStr (lit "isRead eq false"))
     /\ query_params true limit !! lit "$top" = Some (PInt limit)
     /\ query_params true limit !! lit "$orderby"
        = Some (PStr (lit "receivedDateTime desc"))
     /\ query_params true limit !! lit "$select"
        = Some (PStr (lit "subject,from,receivedDateTime,isRead,bodyPreview"))
     /\ dom (query_params true limit)
        = {[ lit "$filter"; lit "$top"; lit "$orderby"; lit "$select" ]})
  /\ (forall w mailbox token limit, exists rest,
        trace (check_emails w mailbox token true limit)
        = EvGet (messages_url mailbox) (auth_headers w token)
            (query_params true limit) :: rest
        /\ filter is_get rest = [])
  /\ (forall w, always (sends_params (query_params true 10)) (main w)).
Proof.
  split; [apply query_params_unread|]. split.
  - intros w mailbox token limit. rewrite check_emails_cases. cbn zeta.
    destruct (requests_get _ _ _ _) as [e|r]; [by eexists|].
    destruct (negb _); [by eexists|]. destruct (json r) as [[]|]; by eexists.
  - intros w. unfold main.
    destruct (mailbox_arg w) as [[|c m]|];
      [rewrite for_each_print; by repeat constructor |
      |rewrite for_each_print; by repeat constructor].
    unfold report.
    apply always_bind; [apply always_print | intros _ _].
    apply always_bind; [apply always_get_credentials | intros creds _].
    apply always_bind; [apply always_get_token | intros token _].
    apply always_bind.
    { rewrite check_emails_cases. cbn zeta. unfold always.
      destruct (requests_get _ _ _ _) as [e|r]; [by repeat constructor|].
      destruct (negb _); [by repeat constructor|].
      destruct (json r) as [[]|]; by repeat constructor. }
    intros emails _. destruct (negb _); [apply always_print|].
    apply always_bind; [destruct emails; constructor | intros n _].
    apply always_bind; [apply always_print | intros _ _].
    apply always_bind; [destruct emails; constructor | intros items _].
    apply always_for_each. intros email. apply always_print_email.
Qed.

(** ** Whole runs (lines 84-92) *)

Lemma print_bind {B} s (k : unit -> io B) :
  print s ≫= k = (EvPrint s :: trace (k tt), result (k tt)).
Proof. unfold print. by rewrite bind_ok. Qed.



(** ** Presentation (lines 96-107) *)

Lemma get_method_dict (d : dict) : get_method (PDict d) = mret d.
Proof. done. Qed.

Lemma slice_to_str n s : slice_to n (PStr s) = mret (PStr (take n s)).
Proof. done. Qed.

Lemma replace_method_str a b s :
  replace_method a b (PStr s) = mret (PStr (replace_char a b s)).
Proof. done. Qed.

Lemma encodable_after (prefix : string) (x : pystr) :
  encodable (lit prefix) = true -> encodable x = true ->
  encodable (lit prefix ++ x) = true.
Proof. intros Hp Hx. by rewrite encodable_app, Hp, Hx. Qed.

(** What the loop body does once its lookups have succeeded. *)
Lemma print_email_steps
    (w : world) (d f s : dict) (address : pyval) (stamp preview : pystr) :
  d !! lit "from" = Some (PDict f) ->
  f !! lit "emailAddress" = Some (PDict s) ->
  s !! lit "address" = Some address ->
  d !! lit "receivedDateTime" = Some (PStr stamp) ->
  d !! lit "bodyPreview" = Some (PStr preview)
    \/ (d !! lit "bodyPreview" = None /\ preview = []) ->
  print_email w (PDict d)
  = (print_field (lit "From: " ++ py_str w (default address (s !! lit "name"))) ;;
     print_field
       (lit "Subject: "
        ++ py_str w (default (PStr (lit "(no subject)")) (d !! lit "subject"))) ;;
     print_field (lit "Received: " ++ replace_char 84 32 (take 16 stamp)) ;;
     print_field (lit "Preview: " ++ take 80 preview ++ lit "...") ;;
     print rule_line).
Proof.
  intros Hfrom Hsender Haddr Hstamp Hprev. unfold print_email.
  rewrite (subscript_Some _ _ _ Hfrom), bind_ret.
  rewrite (subscript_Some _ _ _ Hsender), bind_ret.
  rewrite (get_method_dict s), bind_ret.
  rewrite (subscript_Some _ _ _ Haddr), bind_ret. cbn zeta.
  rewrite get_method_dict, bind_ret. cbn zeta.
  rewrite (subscript_Some _ _ _ Hstamp), bind_ret.
  rewrite slice_to_str, bind_ret, replace_method_str, bind_ret.
  rewrite bind_ret. unfold dict_get.
  destruct Hprev as [-> | [-> ->]]; cbn [default id];
    by rewrite slice_to_str, bind_ret.
Qed.

Lemma print_fields_all (l1 l2 l3 l4 r : pystr) :
  encodable l1 = true -> encodable l2 = true ->
  encodable l3 = true -> encodable l4 = true ->
  (print_field l1 ;; print_field l2 ;; print_field l3 ;; print_field l4 ;; print r)
  = ([EvPrint l1; EvPrint l2; EvPrint l3; EvPrint l4; EvPrint r], Ok tt).
Proof. intros H1 H2 H3 H4. unfold print_field. by rewrite H1, H2, H3, H4. Qed.

(** C3. For a message whose sender object has an address, whose received
    timestamp is a string, and whose shown texts hold no surrogate, so that
    the stream takes them, the loop body prints, in this order: [From:] with
    the sender's [name], or the address when there is no [name]; [Subject:]
    with the [subject], or [(no subject)] when there is none; [Received:] with
    the first 16 characters of the timestamp, every [T] replaced by a space;
    [Preview:] with the first 80 characters of the body preview (empty when
    absent) followed by three dots; and a rule of 50 dashes. *)
Theorem print_email_lines
    (w : world) (d f s : dict) (address : pyval) (stamp preview : pystr) :
  d !! lit "from" = Some (PDict f) ->
  f !! lit "emailAddress" = Some (PDict s) ->
  s !! lit "address" = Some address ->
  d !! lit "receivedDateTime" = Some (PStr stamp) ->
  d !! lit "bodyPreview" = Some (PStr preview)
    \/ (d !! lit "bodyPreview" = None /\ preview = []) ->
  encodable (py_str w (default address (s !! lit "name"))) = true ->
  encodable (py_str w (default (PStr (lit "(no subject)")) (d !! lit "subject")))
    = true ->
  encodable (take 16 stamp) = true ->
  encodable (take 80 preview) = true ->
  print_email w (PDict d)
  = ([EvPrint (lit "From: " ++ py_str w (default address (s !! lit "name")));
      EvPrint (lit "Subject: "
               ++ py_str w (default (PStr (lit "(no subject)")) (d !! lit "subject")));
      EvPrint (lit "Received: " ++ replace_char 84 32 (take 16 stamp));
      EvPrint (lit "Preview: " ++ take 80 preview ++ lit "...");
      EvPrint (replicate 50 45%N)], Ok tt).
Proof.
  intros Hfrom Hsender Haddr Hstamp Hprev Hname Hsubject Hreceived Hpreview.
  rewrite (print_email_steps _ _ _ _ _ _ _ Hfrom Hsender Haddr Hstamp Hprev).
  apply print_fields_all.
  - by apply encodable_after.
  - by apply encodable_after.
  - apply encodable_after; [done|]. by rewrite encodable_replace_char.
  - apply encodable_after; [done|]. by rewrite encodable_app, Hpreview.
Qed.

(** The loop prints the entries one after the other, in list order. *)
Lemma for_each_print_email (w : world) (lines : pyval -> list pystr) emails :
  Forall (fun e => print_email w e = (EvPrint <$> lines e, Ok tt)) emails ->
  for_each (print_email w) emails = (EvPrint <$> concat (lines <$> emails), Ok tt).
Proof.
  induction 1 as [|e emails He _ IH]; [done|]. cbn [for_each].
  rewrite He, IH, bind_ok. cbn [trace result fst snd fmap list_fmap concat].
  by rewrite fmap_app.
Qed.

(** An ISO 8601 timestamp [YYYY-MM-DDTHH:MM...] is shown as
    [YYYY-MM-DD HH:MM]. *)
Lemma received_minute_precision (date hm rest : pystr) :
  length date = 10 -> length hm = 5 ->
  84%N ∉ date -> 84%N ∉ hm ->
  replace_char 84 32 (take 16 (date ++ [84%N] ++ hm ++ rest)) = date ++ [32%N] ++ hm.
Proof.
  intros Hd Hh Hnd Hnh.
  assert (Hid : forall l : pystr, 84%N ∉ l -> replace_char 84 32 l = l).
  { induction l as [|c l IH]; [done|]. intros Hc. cbn.
    apply not_elem_of_cons in Hc as [Hne Hl].
    destruct (N.eqb_spec c 84) as [->|]; [done|]. f_equal. by apply IH. }
  replace (date ++ [84%N] ++ hm ++ rest) with ((date ++ [84%N] ++ hm) ++ rest)
    by (by rewrite <- !app_assoc).
  rewrite take_app_length' by (rewrite !length_app, Hd, Hh; done).
  unfold replace_char. rewrite !map_app.
  fold (replace_char 84 32 date). fold (replace_char 84 32 hm).
  by rewrite !Hid.
Qed.

Lemma subscript_pure v k : pure_step (subscript v k).
Proof.
  destruct v; try (right; by eexists). simpl.
  destruct (_ !! _); [left | right]; by eexists.
Qed.

Lemma get_method_pure v : pure_step (get_method v).
Proof. destruct v; try (right; by eexists). left. by eexists. Qed.

Lemma bind_raise_nil {A B} e (k : A -> io B) : raise e ≫= k = raise e.
Proof. done. Qed.

(** A message without [receivedDateTime] is never printed: whatever else it
    holds, the loop body ends in an exception before its first [print]. *)
Lemma print_email_needs_received (w : world) (d : dict) :
  d !! lit "receivedDateTime" = None ->
  exists e, print_email w (PDict d) = ([], Raise e).
Proof.
  intros Hnone. unfold print_email.
  destruct (subscript_pure (PDict d) (lit "from")) as [[from ->]|[e ->]];
    [rewrite bind_ret | by eexists].
  destruct (subscript_pure from (lit "emailAddress")) as [[sender ->]|[e ->]];
    [rewrite bind_ret | by eexists].
  destruct (get_method_pure sender) as [[sender_get ->]|[e ->]];
    [rewrite bind_ret | by eexists].
  destruct (subscript_pure sender (lit "address")) as [[address ->]|[e ->]];
    [rewrite bind_ret | by eexists].
  cbn zeta. rewrite get_method_dict, bind_ret. cbn zeta.
  rewrite (subscript_None _ _ Hnone). by eexists.
Qed.

(** C9. A message whose sender object has no [address] raises
    [KeyError('address')] before anything is printed, whether or not the
    sender has a [name]; a message without [from] raises [KeyError('from')];
    a message with a complete sender but without [receivedDateTime] raises
    [KeyError('receivedDateTime')], and no message without
    [receivedDateTime] gets past the loop body without an exception. *)
Theorem missing_keys_raise (w : world) (d : dict) :
  (forall f s : dict,
     d !! lit "from" = Some (PDict f) ->
     f !! lit "emailAddress" = Some (PDict s) ->
     s !! lit "address" = None ->
     print_email w (PDict d) = ([], Raise (KeyError (lit "address"))))
  /\ (d !! lit "from" = None ->
      print_email w (PDict d) = ([], Raise (KeyError (lit "from"))))
  /\ (forall (f s : dict) (address : pyval),
        d !! lit "from" = Some (PDict f) ->
        f !! lit "emailAddress" = Some (PDict s) ->
        s !! lit "address" = Some address ->
        d !! lit "receivedDateTime" = None ->
        print_email w (PDict d) = ([], Raise (KeyError (lit "receivedDateTime"))))
  /\ (d !! lit "receivedDateTime" = None ->
      exists e, print_email w (PDict d) = ([], Raise e)).
Proof.
  split; [|split; [|split]].
  - intros f s Hfrom Hsender Haddr. unfold print_email.
    rewrite (subscript_Some _ _ _ Hfrom), bind_ret.
    rewrite (subscript_Some _ _ _ Hsender), bind_ret.
    rewrite (get_method_dict s), bind_ret.
    by rewrite (subscript_None _ _ Haddr).
  - intros Hfrom. unfold print_email. by rewrite (subscript_None _ _ Hfrom).
  - intros f s address Hfrom Hsender Haddr Hstamp. unfold print_email.
    rewrite (subscript_Some _ _ _ Hfrom), bind_ret.
    rewrite (subscript_Some _ _ _ Hsender), bind_ret.
    rewrite (get_method_dict s), bind_ret.
    rewrite (subscript_Some _ _ _ Haddr), bind_ret. cbn zeta.
    rewrite get_method_dict, bind_ret. cbn zeta.
    by rewrite (subscript_None _ _ Hstamp).
  - apply print_email_needs_received.
Qed.

(** An exception in the loop body ends the whole run: a listing whose first
    message makes [print_email] raise leaves [main] with that exception. *)
Lemma for_each_raise {A} (body : A -> io unit) x l t e :
  body x = (t, Raise e) -> for_each body (x :: l) = (t, Raise e).
Proof. intros H. cbn [for_each]. by rewrite H. Qed.

(** ** Credential loading (lines 17-29) *)

(** C5, as the code has it. After a lookup that exits zero: output that
    [json.loads] rejects makes [get_credentials] end in the exception that
    [json.loads] raised, with nothing printed; output that it accepts is
    returned as it is, and an object that lacks one of the three fields makes
    [get_token] end in [KeyError] for the first missing field, in the order
    [tenant_id], [client_id], [client_secret], with nothing printed and no
    request sent. *)
Theorem malformed_credentials_unhandled (w : world) (c : completed) :
  subprocess_run w security_cmd = inr c ->
  returncode c = 0%Z ->
  (forall e, json_loads w (strip (stdout c)) = inl e ->
   get_credentials w = ([EvRun security_cmd], Raise e))
  /\ (forall v, json_loads w (strip (stdout c)) = inr v ->
      get_credentials w = ([EvRun security_cmd], Ok v))
  /\ (forall d : dict,
        (d !! lit "tenant_id" = None ->
         get_token w (PDict d) = ([], Raise (KeyError (lit "tenant_id"))))
        /\ (is_Some (d !! lit "tenant_id") -> d !! lit "client_id" = None ->
            get_token w (PDict d) = ([], Raise (KeyError (lit "client_id"))))
        /\ (is_Some (d !! lit "tenant_id") -> is_Some (d !! lit "client_id") ->
            d !! lit "client_secret" = None ->
            get_token w (PDict d) = ([], Raise (KeyError (lit "client_secret"))))).
Proof.
  intros Hrun H0. rewrite get_credentials_cases, Hrun, H0. cbn [Z.eqb negb].
  split; [by intros e -> | split; [by intros v -> |]].
  intros d. unfold get_token. split; [|split].
  - intros Ht. by rewrite (subscript_None _ _ Ht).
  - intros [tenant Ht] Hc. rewrite (subscript_Some _ _ _ Ht), bind_ret.
    by rewrite (subscript_None _ _ Hc).
  - intros [tenant Ht] [cid Hc] Hs.
    rewrite (subscript_Some _ _ _ Ht), bind_ret.
    rewrite (subscript_Some _ _ _ Hc), bind_ret.
    by rewrite (subscript_None _ _ Hs).
Qed.

(** ** The statements on sample worlds *)

Lemma no_mailbox_prints_usage_sample :
  main (sample_world [lit "email-check.py"] (keychain bundle_text)
          (inr token_ok) (inr listing_empty))
  = (EvPrint <$> usage, Exit 1).
Proof.
  apply (no_mailbox_prints_usage
           (sample_world [lit "email-check.py"] (keychain bundle_text)
              (inr token_ok) (inr listing_empty))).
  cbn. lia.
Defined.

Lemma empty_mailbox_same_as_missing_sample :
  main (sample_world [lit "email-check.py"; []] (keychain bundle_text)
          (inr token_ok) (inr listing_empty))
  = main (sample_world [lit "email-check.py"] (keychain bundle_text)
            (inr token_ok) (inr listing_empty)).
Proof.
  apply (empty_mailbox_same_as_missing
           (sample_world [lit "email-check.py"; []] (keychain bundle_text)
              (inr token_ok) (inr listing_empty))
           (sample_world [lit "email-check.py"] (keychain bundle_text)
              (inr token_ok) (inr listing_empty))).
  - reflexivity.
  - cbn. lia.
Defined.

Lemma get_token_returns_access_token_sample :
  result (get_token (happy_world listing_empty) (PDict bundle)) = Ok (PStr (lit "T")).
Proof.
  rewrite (get_token_returns_access_token (happy_world listing_empty) bundle
             {[ lit "access_token" := PStr (lit "T") ]}
             (PStr (lit "contoso")) (PStr (lit "app")) (PStr (lit "s3cret"))
             token_ok (PStr (lit "T")));
    reflexivity.
Defined.



Lemma print_email_lines_sample :
  print_email (happy_world listing_empty) (PDict bob_message)
  = ([EvPrint (lit "From: Bob");
      EvPrint (lit "Subject: Hi");
      EvPrint (lit "Received: 2024-01-01 12:34");
      EvPrint (lit "Preview: Hello world...");
      EvPrint (lit "--------------------------------------------------")],
     Ok tt).
Proof.
  rewrite (print_email_lines (happy_world listing_empty) bob_message bob_from
             bob_sender (PStr (lit "bob@x.com"))
             (lit "2024-01-01T12:34:56Z") (lit "Hello world"));
    first [reflexivity | left; reflexivity].
Defined.

Lemma missing_keys_raise_sample :
  print_email (happy_world listing_empty) (PDict nameonly_message)
  = ([], Raise (KeyError (lit "address")))
  /\ print_email (happy_world listing_empty) (PDict undated_message)
     = ([], Raise (KeyError (lit "receivedDateTime"))).
Proof.
  split.
  - destruct (missing_keys_raise (happy_world listing_empty) nameonly_message)
      as (H & _).
    apply (H {[ lit "emailAddress" := PDict nameonly_sender ]} nameonly_sender);
      reflexivity.
  - destruct (missing_keys_raise (happy_world listing_empty) undated_message)
      as (_ & _ & H & _).
    apply (H bob_from bob_sender (PStr (lit "bob@x.com"))); reflexivity.
Defined.


Lemma malformed_credentials_unhandled_sample :
  get_credentials garbled_world = ([EvRun security_cmd], Raise JSONDecodeError).
Proof.
  destruct (malformed_credentials_unhandled garbled_world
              {| returncode := 0; stdout := lit "not json" ++ [newline] |}
              eq_refl eq_refl) as (H & _).
  exact (H JSONDecodeError eq_refl).
Defined.

(** An exception raised for the first listed message ends the run with that
    exception, after the progress line and the count line. *)
Lemma run_dies_on_first_bad_message
    (w : world) (m : pystr) (t1 t2 t3 : list event) (creds token email : pyval)
    (rest : list pyval) (e : exn) :
  mailbox_arg w = Some m -> m <> [] ->
  get_credentials w = (t1, Ok creds) ->
  get_token w creds = (t2, Ok token) ->
  check_emails w m token true 10 = (t3, Ok (PList (email :: rest))) ->
  print_email w email = ([], Raise e) ->
  result (main w) = Raise e /\ exit_status (main w) = 1%Z.
Proof.
  intros Harg Hm Hcreds Htok Hlist Hbad.
  assert (Hres : result (main w) = Raise e).
  { rewrite (main_report _ _ Harg Hm). unfold report.
    rewrite print_bind, Hcreds, bind_ok. cbn beta.
    rewrite Htok, bind_ok. cbn beta. rewrite Hlist, bind_ok. cbn beta.
    cbn [truthy negb length bool_decide decide_rel]. cbn [py_len py_iter].
    rewrite bind_ret, print_bind, bind_ret, (for_each_raise _ _ _ _ _ Hbad).
    done. }
  split; [done|]. unfold exit_status. by rewrite Hres.
Qed.

(** ** Where the code departs from the specification *)


(** C5, as stated, fails: a secret that is not JSON, and a JSON object
    without the fields, both end the run in an unhandled exception; the only
    line printed is the progress line, and no diagnostic follows it. *)
Lemma malformed_secret_crashes :
  (subprocess_run garbled_world security_cmd
     = inr {| returncode := 0; stdout := lit "not json" ++ [newline] |}
   /\ json_loads garbled_world (strip (lit "not json" ++ [newline]))
      = inl JSONDecodeError
   /\ get_credentials garbled_world = ([EvRun security_cmd], Raise JSONDecodeError)
   /\ main garbled_world
      = ([EvPrint (checking_line (lit "me@x.com")); EvRun security_cmd],
         Raise JSONDecodeError))
  /\ (subprocess_run fieldless_world security_cmd
        = inr {| returncode := 0; stdout := lit "{}" ++ [newline] |}
      /\ json_loads fieldless_world (strip (lit "{}" ++ [newline]))
         = inr (PDict ∅)
      /\ get_credentials fieldless_world = ([EvRun security_cmd], Ok (PDict ∅))
      /\ main fieldless_world
         = ([EvPrint (checking_line (lit "me@x.com")); EvRun security_cmd],
            Raise (KeyError (lit "tenant_id")))).
Proof. repeat split; vm_compute; reflexivity. Qed.

(** * Further properties of the script *)

(** ** Every path of [get_token] and of [present] *)

Lemma get_token_cases (w : world) (creds : pyval) :
  get_token w creds =
    match creds with
    | PDict d =>
        match d !! lit "tenant_id" with
        | None => ([], Raise (KeyError (lit "tenant_id")))
        | Some tenant =>
        match d !! lit "client_id" with
        | None => ([], Raise (KeyError (lit "client_id")))
        | Some client_id =>
        match d !! lit "client_secret" with
        | None => ([], Raise (KeyError (lit "client_secret")))
        | Some client_secret =>
            let url := token_url w tenant in
            let data := token_form client_id client_secret in
            match requests_post w url data with
            | inl e => ([EvPost url data], Raise e)
            | inr r =>
                if negb (status_code r =? 200)%Z
                then ([EvPost url data; EvPrint (auth_failed_line (text r))], Exit 1)
                else match json r with
                     | None => ([EvPost url data], Raise JSONDecodeError)
                     | Some (PDict body) =>
                         match body !! lit "access_token" with
                         | Some token => ([EvPost url data], Ok token)
                         | None => ([EvPost url data],
                                    Raise (KeyError (lit "access_token")))
                         end
                     | Some _ => ([EvPost url data], Raise TypeError)
                     end
            end
        end end end
    | _ => ([], Raise TypeError)
    end.
Proof.
  destruct creds as [| | | | |l|d]; try reflexivity.
  destruct (d !! lit "tenant_id") as [tenant|] eqn:Ht;
    [|unfold get_token; by rewrite (subscript_None _ _ Ht)].
  destruct (d !! lit "client_id") as [cid|] eqn:Hc.
  2: { unfold get_token. rewrite (subscript_Some _ _ _ Ht), bind_ret.
       by rewrite (subscript_None _ _ Hc). }
  destruct (d !! lit "client_secret") as [cs|] eqn:Hs.
  2: { unfold get_token. rewrite (subscript_Some _ _ _ Ht), bind_ret.
       rewrite (subscript_Some _ _ _ Hc), bind_ret.
       by rewrite (subscript_None _ _ Hs). }
  rewrite (get_token_request _ _ _ _ _ Ht Hc Hs). cbn zeta. unfold post.
  destruct (requests_post _ _ _) as [e|r]; [done|]. rewrite bind_ok. cbn beta.
  destruct (negb _); [done|]. unfold response_json.
  destruct (json r) as [[| | | | | |body]|]; try done.
  rewrite bind_ret. unfold subscript. by destruct (body !! _).
Qed.

Lemma report_present (w : world) (m : pystr) :
  report w m =
    (print (checking_line m) ;;
     creds ← get_credentials w;
     token ← get_token w creds;
     emails ← check_emails w m token true 10;
     present w emails).
Proof. reflexivity. Qed.


Lemma printed_cons_print {A} s t (o : outcome A) :
  printed (EvPrint s :: t, o) = s :: printed (t, o).
Proof. done. Qed.

Lemma printed_fmap_print {A} (l : list pystr) (o : outcome A) :
  printed (EvPrint <$> l, o) = l.
Proof.
  unfold printed. cbn [trace fst]. induction l as [|s l IH]; [done|].
  cbn. by rewrite IH.
Qed.

(** ** Failure of the secret-store lookup (lines 23-28) *)


(** ** Errors of the outside world *)



(** ** Whitespace around the secret (line 29) *)

Lemma lstrip_app (a b : pystr) :
  lstrip (a ++ b) = match lstrip a with [] => lstrip b | _ => lstrip a ++ b end.
Proof.
  induction a as [|c a IH]; [done|]. cbn [lstrip app].
  destruct (isspace c); [exact IH | done].
Qed.

Lemma lstrip_spaces (l : pystr) :
  Forall (fun c => isspace c = true) l -> lstrip l = [].
Proof. induction 1 as [|c l Hc _ IH]; [done|]. cbn [lstrip]. by rewrite Hc. Qed.

Lemma strip_surrounding (pre body post : pystr) :
  Forall (fun c => isspace c = true) pre ->
  Forall (fun c => isspace c = true) post ->
  strip (pre ++ body ++ post) = strip body.
Proof.
  intros Hpre Hpost. unfold strip.
  rewrite lstrip_app, (lstrip_spaces _ Hpre), lstrip_app.
  destruct (lstrip body) as [|c l] eqn:E.
  - by rewrite (lstrip_spaces _ Hpost).
  - rewrite reverse_app, lstrip_app, lstrip_spaces; [done|].
    by apply Forall_reverse.
Qed.

Lemma lstrip_trimmed (s : pystr) :
  (forall x, head s = Some x -> isspace x = false) -> lstrip s = s.
Proof.
  destruct s as [|c s]; [done|]. intros H. cbn [lstrip]. by rewrite (H c).
Qed.

Lemma strip_trimmed (s : pystr) :
  (forall x, head s = Some x -> isspace x = false) ->
  (forall x, last s = Some x -> isspace x = false) ->
  strip s = s.
Proof.
  intros Hhead Hlast. unfold strip. rewrite (lstrip_trimmed s Hhead).
  rewrite lstrip_trimmed; [apply reverse_involutive|].
  intros x. rewrite head_reverse. apply Hlast.
Qed.

(** X4. Whitespace that surrounds the secret in the lookup's output, such as
    the newline the command ends with, plays no part: the text handed to the
    JSON parser is the output from its first to its last non-blank character,
    unchanged in between, and the empty text when the output is all blank. *)
Theorem get_credentials_ignores_whitespace
    (w : world) (c : completed) (pre body post : pystr) :
  subprocess_run w security_cmd = inr c ->
  returncode c = 0%Z ->
  stdout c = pre ++ body ++ post ->
  Forall (fun x => isspace x = true) pre ->
  Forall (fun x => isspace x = true) post ->
  (forall x, head body = Some x -> isspace x = false) ->
  (forall x, last body = Some x -> isspace x = false) ->
  get_credentials w
  = ([EvRun security_cmd],
     match json_loads w body with
     | inr v => Ok v
     | inl e => Raise e
     end).
Proof.
  intros Hrun H0 Hout Hpre Hpost Hhead Hlast.
  rewrite get_credentials_cases, Hrun, H0, Hout. cbn [Z.eqb negb].
  rewrite (strip_surrounding _ _ _ Hpre Hpost), (strip_trimmed _ Hhead Hlast).
  by destruct (json_loads _ _).
Qed.

(** ** Token exchange: the remaining paths (lines 32-46) *)

(** X5. [get_token] reads the bundle before it sends anything: a secret that
    is not a JSON object gives [TypeError], and an object is searched for
    [tenant_id], [client_id] and [client_secret] in this order, the first
    missing one giving [KeyError]; in all these cases no request is sent and
    nothing is printed. *)
Theorem bundle_read_in_order (w : world) (creds : pyval) :
  ((forall d : dict, creds <> PDict d) ->
   get_token w creds = ([], Raise TypeError))
  /\ (forall d : dict, creds = PDict d ->
      (d !! lit "tenant_id" = None ->
       get_token w creds = ([], Raise (KeyError (lit "tenant_id"))))
      /\ (is_Some (d !! lit "tenant_id") -> d !! lit "client_id" = None ->
          get_token w creds = ([], Raise (KeyError (lit "client_id"))))
      /\ (is_Some (d !! lit "tenant_id") -> is_Some (d !! lit "client_id") ->
          d !! lit "client_secret" = None ->
          get_token w creds = ([], Raise (KeyError (lit "client_secret"))))).
Proof.
  rewrite get_token_cases. split.
  - intros Hnd. destruct creds; try done. by destruct (Hnd d).
  - intros d ->. split; [by intros -> | split].
    + by intros [t ->] ->.
    + by intros [t ->] [c ->] ->.
Qed.

(** X6. A 200 answer of the token endpoint that carries no usable token is
    not reported as an authentication failure: a body that is not JSON ends
    in the decode error, a JSON object without [access_token] in
    [KeyError('access_token')], any other JSON value in [TypeError]; the POST
    has been sent and nothing is printed. *)
Theorem token_reply_without_token
    (w : world) (d : dict) (tenant client_id client_secret : pyval) (r : response) :
  d !! lit "tenant_id" = Some tenant ->
  d !! lit "client_id" = Some client_id ->
  d !! lit "client_secret" = Some client_secret ->
  requests_post w (token_url w tenant) (token_form client_id client_secret) = inr r ->
  status_code r = 200%Z ->
  trace (get_token w (PDict d))
    = [EvPost (token_url w tenant) (token_form client_id client_secret)]
  /\ (json r = None -> result (get_token w (PDict d)) = Raise JSONDecodeError)
  /\ (forall body : dict, json r = Some (PDict body) ->
        body !! lit "access_token" = None ->
        result (get_token w (PDict d)) = Raise (KeyError (lit "access_token")))
  /\ (forall v, json r = Some v -> (forall body : dict, v <> PDict body) ->
        result (get_token w (PDict d)) = Raise TypeError).
Proof.
  intros Ht Hc Hs Hpost H200.
  rewrite get_token_cases, Ht, Hc, Hs. cbn zeta. rewrite Hpost, H200.
  cbn [Z.eqb Pos.eqb negb]. split; [|split; [|split]].
  - destruct (json r) as [[| | | | | |body]|]; try done.
    by destruct (body !! _).
  - by intros ->.
  - by intros body -> ->.
  - intros v -> Hv. destruct v; try done. by destruct (Hv d0).
Qed.

(** X7. Whenever [get_token] sends a POST, the credentials are a JSON object
    with the three fields, the URL is the tenant's token endpoint, and the
    form holds exactly [grant_type] = client_credentials, the bundle's
    [client_id] and [client_secret], and the scope of the Graph API. *)
Theorem token_request_contents (w : world) (creds : pyval) (url : pystr) (data : dict) :
  EvPost url data ∈ trace (get_token w creds) ->
  exists (d : dict) (tenant client_id client_secret : pyval),
    creds = PDict d
    /\ d !! lit "tenant_id" = Some tenant
    /\ d !! lit "client_id" = Some client_id
    /\ d !! lit "client_secret" = Some client_secret
    /\ url = lit "https://login.microsoftonline.com/" ++ py_str w tenant
               ++ lit "/oauth2/v2.0/token"
    /\ data !! lit "grant_type" = Some (PStr (lit "client_credentials"))
    /\ data !! lit "client_id" = Some client_id
    /\ data !! lit "client_secret" = Some client_secret
    /\ data !! lit "scope" = Some (PStr (lit "https://graph.microsoft.com/.default"))
    /\ dom data = {[ lit "grant_type"; lit "client_id"; lit "client_secret";
                     lit "scope" ]}.
Proof.
  rewrite get_token_cases. intros Hin.
  destruct creds as [| | | | | |d]; try by apply elem_of_nil in Hin.
  destruct (d !! lit "tenant_id") as [tenant|] eqn:Ht; [|by apply elem_of_nil in Hin].
  destruct (d !! lit "client_id") as [cid|] eqn:Hc; [|by apply elem_of_nil in Hin].
  destruct (d !! lit "client_secret") as [cs|] eqn:Hs; [|by apply elem_of_nil in Hin].
  cbn zeta in Hin.
  assert (Hpost : EvPost url data = EvPost (token_url w tenant) (token_form cid cs)).
  { destruct (requests_post _ _ _) as [e|r].
    - by apply list_elem_of_singleton in Hin.
    - destruct (negb _).
      + apply elem_of_cons in Hin as [Hin|Hin]; [done|].
        by apply list_elem_of_singleton in Hin.
      + destruct (json r) as [[| | | | | |body]|];
          try by apply list_elem_of_singleton in Hin.
        destruct (body !! _); by apply list_elem_of_singleton in Hin. }
  injection Hpost as -> ->. exists d, tenant, cid, cs.
  repeat split; try done; vm_compute; reflexivity.
Qed.

(** ** Mailbox listing: the remaining paths (lines 49-72) *)

(** X8. With [unread_only] false the GET carries no [$filter]: its parameters
    are exactly [$top], [$orderby] and [$select], with the same values as in
    unread-only mode, so the filter is the only difference between the two
    modes. *)
Theorem all_mail_query_params (w : world) (mailbox : pystr) (token : pyval) (limit : Z) :
  (exists rest,
     trace (check_emails w mailbox token false limit)
     = EvGet (messages_url mailbox) (auth_headers w token)
         (query_params false limit) :: rest)
  /\ query_params false limit !! lit "$filter" = None
  /\ dom (query_params false limit) = {[ lit "$top"; lit "$orderby"; lit "$select" ]}
  /\ query_params false limit = delete (lit "$filter") (query_params true limit)
  /\ query_params true limit
     = <[ lit "$filter" := PStr (lit "isRead eq false") ]> (query_params false limit).
Proof.
  split.
  - rewrite check_emails_cases. cbn zeta.
    destruct (requests_get _ _ _ _) as [e|r]; [by eexists|].
    destruct (negb _); [by eexists|]. destruct (json r) as [[]|]; by eexists.
  - repeat split; vm_compute; reflexivity.
Qed.

(** X9. A 200 answer of the listing endpoint whose body cannot be used ends
    the call in an exception after the GET, with nothing printed: the decode
    error when the body is not JSON, [AttributeError] when it is JSON but not
    an object. *)
Theorem listing_reply_unusable
    (w : world) (mailbox : pystr) (token : pyval) (unread_only : bool) (limit : Z)
    (r : response) :
  requests_get w (messages_url mailbox) (auth_headers w token)
    (query_params unread_only limit) = inr r ->
  status_code r = 200%Z ->
  (json r = None ->
   check_emails w mailbox token unread_only limit
   = ([EvGet (messages_url mailbox) (auth_headers w token)
         (query_params unread_only limit)], Raise JSONDecodeError))
  /\ (forall v, json r = Some v -> (forall body : dict, v <> PDict body) ->
      check_emails w mailbox token unread_only limit
      = ([EvGet (messages_url mailbox) (auth_headers w token)
            (query_params unread_only limit)], Raise AttributeError)).
Proof.
  intros Hget H200. rewrite check_emails_cases. cbn zeta. rewrite Hget, H200.
  cbn [Z.eqb Pos.eqb negb]. split; [by intros ->|].
  intros v -> Hv. destruct v; try done. by destruct (Hv d).
Qed.

(** ** What the steps after the listing can do *)

Section prints_only.
Variable P : event -> Prop.
Hypothesis P_print : forall s, P (EvPrint s).

Lemma print_email_always (w : world) (email : pyval) : always P (print_email w email).
Proof using P_print.
  assert (Hget : forall v, always P (get_method v)) by (intros []; constructor).
  assert (Hslice : forall n v, always P (slice_to n v)) by (intros ? []; constructor).
  assert (Hrepl : forall a b v, always P (replace_method a b v))
    by (intros ?? []; constructor).
  assert (Hprint : forall s, always P (print s)) by (intros s; by repeat constructor).
  unfold print_email.
  repeat first
    [ apply Hprint
    | by apply always_print_field
    | unfold always; rewrite subscript_silent; constructor
    | apply Hget | apply Hslice | apply Hrepl
    | apply always_bind; [|intros ? _] ].
Qed.

Lemma present_always (w : world) (emails : pyval) : always P (present w emails).
Proof using P_print.
  unfold present. destruct (negb _); [by repeat constructor|].
  apply always_bind; [destruct emails; constructor | intros n _].
  apply always_bind; [by repeat constructor | intros _ _].
  apply always_bind; [destruct emails; constructor | intros items _].
  apply always_for_each. intros email. apply print_email_always.
Qed.
End prints_only.

Lemma external_app (a b : list event) : external (a ++ b) = external a ++ external b.
Proof. apply filter_app. Qed.

Lemma external_prints (t : list event) :
  Forall (fun e => is_print e = true) t -> external t = [].
Proof.
  induction 1 as [|e t He _ IH]; [done|]. unfold external.
  rewrite filter_cons_False; [exact IH|]. rewrite He. cbn. tauto.
Qed.

Lemma external_present (w : world) (emails : pyval) :
  external (trace (present w emails)) = [].
Proof. apply external_prints. by apply (present_always (fun e => is_print e = true)). Qed.

Lemma external_cons_print s (t : list event) : external (EvPrint s :: t) = external t.
Proof. unfold external. rewrite filter_cons_False; [done|]. cbn. tauto. Qed.

Lemma external_get_credentials (w : world) :
  external (trace (get_credentials w)) = [EvRun security_cmd].
Proof.
  rewrite get_credentials_cases.
  destruct (subprocess_run _ _) as [e|c]; [done|].
  destruct (negb _); [|by destruct (json_loads _ _)].
  cbn [trace fst].
  change (EvRun security_cmd :: (EvPrint <$> no_credentials_help))
    with ([EvRun security_cmd] ++ (EvPrint <$> no_credentials_help)).
  rewrite external_app, (external_prints (EvPrint <$> _)); [done|].
  apply Forall_fmap, Forall_true. done.
Qed.

Lemma external_get_token (w : world) (creds : pyval) :
  external (trace (get_token w creds)) = []
  \/ exists url data, external (trace (get_token w creds)) = [EvPost url data].
Proof.
  rewrite get_token_cases.
  destruct creds as [| | | | | |d]; try by left.
  destruct (d !! lit "tenant_id") as [tenant|]; [|by left].
  destruct (d !! lit "client_id") as [cid|]; [|by left].
  destruct (d !! lit "client_secret") as [cs|]; [|by left].
  right. exists (token_url w tenant), (token_form cid cs). cbn zeta.
  destruct (requests_post _ _ _) as [e|r]; [done|].
  destruct (negb _); [done|].
  destruct (json r) as [[| | | | | |body]|]; try done. by destruct (body !! _).
Qed.

Lemma external_check_emails (w : world) (m : pystr) (token : pyval) u limit :
  external (trace (check_emails w m token u limit))
  = [EvGet (messages_url m) (auth_headers w token) (query_params u limit)].
Proof.
  rewrite check_emails_cases. cbn zeta.
  destruct (requests_get _ _ _ _) as [e|r]; [done|].
  destruct (negb _); [done|]. by destruct (json r) as [[]|].
Qed.

(** The shape of the outside effects of a run, case by case. *)
Lemma main_external (w : world) :
  external (trace (main w)) = []
  \/ external (trace (main w)) = [EvRun security_cmd]
  \/ (exists url data,
        external (trace (main w)) = [EvRun security_cmd; EvPost url data])
  \/ (exists (m : pystr) (t1 t2 : list event) (creds token : pyval) url data,
        mailbox_arg w = Some m /\ m <> []
        /\ get_credentials w = (t1, Ok creds)
        /\ get_token w creds = (t2, Ok token)
        /\ external (trace (main w))
           = [EvRun security_cmd; EvPost url data;
              EvGet (messages_url m) (auth_headers w token) (query_params true 10)]).
Proof.
  destruct (mailbox_arg w) as [m|] eqn:Harg;
    [|left; rewrite main_usage by (by left); done].
  destruct (decide (m = [])) as [->|Hm];
    [left; rewrite main_usage by (by right); done|].
  rewrite (main_report _ _ Harg Hm), report_present, print_bind.
  cbn [trace fst]. rewrite external_cons_print, trace_bind, external_app.
  rewrite external_get_credentials.
  destruct (result (get_credentials w)) as [creds|c|e] eqn:Hcreds;
    [|right; left; done..].
  rewrite trace_bind, external_app.
  destruct (result (get_token w creds)) as [token|c|e] eqn:Htok.
  - right; right; right.
    assert (Hc : get_credentials w = (trace (get_credentials w), Ok creds))
      by (rewrite <- Hcreds; apply io_eta).
    assert (Ht : get_token w creds = (trace (get_token w creds), Ok token))
      by (rewrite <- Htok; apply io_eta).
    destruct (get_token_Ok_inv _ _ _ _ Ht) as (url & data & Htr).
    exists m, (trace (get_credentials w)), (trace (get_token w creds)),
      creds, token, url, data.
    repeat split; try done.
    rewrite Htr, trace_bind, external_app, external_check_emails.
    destruct (result (check_emails _ _ _ _ _)); [|done..].
    by rewrite external_present.
  - destruct (external_get_token w creds) as [->|(url & data & ->)];
      [right; left; done | right; right; left; by eexists _, _].
  - destruct (external_get_token w creds) as [->|(url & data & ->)];
      [right; left; done | right; right; left; by eexists _, _].
Qed.

(** ** Invariants of every run *)

(** X10. In every run the secret-store lookup, the token POST and the listing
    GET happen at most once each and in this order: the sequence of outside
    effects is a prefix of lookup, POST, GET.  Nothing is retried, and no
    request precedes the lookup. *)
Theorem main_effects_in_order (w : world) :
  exists url data url' headers params,
    external (trace (main w))
      `prefix_of` [EvRun security_cmd; EvPost url data; EvGet url' headers params].
Proof.
  destruct (main_external w)
    as [-> | [-> | [(url & data & ->)
                   | (m & t1 & t2 & creds & token & url & data & _ & _ & _ & _ & ->)]]].
  - exists [], ∅, [], ∅, ∅. by eexists.
  - exists [], ∅, [], ∅, ∅. by eexists.
  - exists url, data, [], ∅, ∅. by eexists.
  - eexists url, data, _, _, _. by exists [].
Qed.

(** X11. Every listing GET of a run goes to the messages of the mailbox named
    by the first argument, and carries as its only header [Authorization]
    with [Bearer] and the token that [get_token] returned for the loaded
    credentials. *)
Theorem listing_request_uses_token (w : world) (url : pystr) (headers params : dict) :
  EvGet url headers params ∈ trace (main w) ->
  exists (m : pystr) (t1 t2 : list event) (creds token : pyval),
    argv w !! 1 = Some m /\ m <> []
    /\ get_credentials w = (t1, Ok creds)
    /\ get_token w creds = (t2, Ok token)
    /\ url = lit "https://graph.microsoft.com/v1.0/users/" ++ m ++ lit "/messages"
    /\ headers !! lit "Authorization"
       = Some (PStr (lit "Bearer " ++ py_str w token))
    /\ dom headers = {[ lit "Authorization" ]}.
Proof.
  intros Hin.
  assert (Hext : EvGet url headers params ∈ external (trace (main w)))
    by (apply list_elem_of_filter; by split).
  destruct (main_external w)
    as [H | [H | [(u & d & H)
                 | (m & t1 & t2 & creds & token & u & d & Harg & Hm & Hc & Ht & H)]]];
    rewrite H in Hext.
  - by apply elem_of_nil in Hext.
  - by apply list_elem_of_singleton in Hext.
  - apply elem_of_cons in Hext as [?|Hext]; [done|].
    by apply list_elem_of_singleton in Hext.
  - apply elem_of_cons in Hext as [?|Hext]; [done|].
    apply elem_of_cons in Hext as [?|Hext]; [done|].
    apply list_elem_of_singleton in Hext. injection Hext as -> -> ->.
    exists m, t1, t2, creds, token.
    assert (Hargv : argv w !! 1 = Some m)
      by (unfold mailbox_arg in Harg; by destruct (_ <? _)%nat).
    unfold auth_headers. rewrite lookup_singleton_eq, dom_singleton_L. done.
Qed.

(** ** One message: all five lines or none (lines 96-107) *)

Lemma replace_char_gone (old new : N) (s : pystr) :
  old <> new -> old ∉ replace_char old new s.
Proof.
  intros Hne. induction s as [|c s IH]; [apply not_elem_of_nil|].
  cbn. apply not_elem_of_cons. split; [|exact IH].
  destruct (N.eqb_spec c old); congruence.
Qed.

Lemma replace_char_length (old new : N) (s : pystr) :
  length (replace_char old new s) = length s.
Proof. unfold replace_char. by rewrite length_map. Qed.

Lemma print_fields_cases (l1 l2 l3 l4 r : pystr) :
  (print_field l1 ;; print_field l2 ;; print_field l3 ;; print_field l4 ;; print r)
  = ([EvPrint l1; EvPrint l2; EvPrint l3; EvPrint l4; EvPrint r], Ok tt)
  \/ exists k, k < 4
       /\ (print_field l1 ;; print_field l2 ;; print_field l3 ;; print_field l4 ;;
           print r)
          = (EvPrint <$> take k [l1; l2; l3; l4], Raise UnicodeEncodeError).
Proof.
  unfold print_field.
  destruct (encodable l1); [|right; exists 0; split; [lia | reflexivity]].
  destruct (encodable l2); [|right; exists 1; split; [lia | reflexivity]].
  destruct (encodable l3); [|right; exists 2; split; [lia | reflexivity]].
  destruct (encodable l4); [|right; exists 3; split; [lia | reflexivity]].
  by left.
Qed.

(** Every lookup of the loop body comes before its first [print]: either one
    of them raises, or the body comes down to its five prints. *)
Lemma print_email_shape (w : world) (email : pyval) :
  (exists e, print_email w email = ([], Raise e))
  \/ (exists name subject received preview : pystr,
        length received <= 16
        /\ (84%N ∉ received)
        /\ print_email w email
           = (print_field (lit "From: " ++ name) ;;
              print_field (lit "Subject: " ++ subject) ;;
              print_field (lit "Received: " ++ received) ;;
              print_field (lit "Preview: " ++ preview ++ lit "...") ;;
              print rule_line)).
Proof.
  destruct email as [| | | | | |d]; try (left; by eexists).
  unfold print_email.
  destruct (subscript_pure (PDict d) (lit "from")) as [[from ->]|[e ->]];
    [rewrite bind_ret | left; by eexists].
  destruct (subscript_pure from (lit "emailAddress")) as [[sender ->]|[e ->]];
    [rewrite bind_ret | left; by eexists].
  destruct (get_method_pure sender) as [[sender_get ->]|[e ->]];
    [rewrite bind_ret | left; by eexists].
  destruct (subscript_pure sender (lit "address")) as [[address ->]|[e ->]];
    [rewrite bind_ret | left; by eexists].
  cbn zeta. rewrite get_method_dict, bind_ret. cbn zeta.
  destruct (subscript_pure (PDict d) (lit "receivedDateTime")) as [[stamp ->]|[e ->]];
    [rewrite bind_ret | left; by eexists].
  destruct stamp as [| | | |s|l|d']; try (left; by eexists).
  rewrite slice_to_str, bind_ret, replace_method_str, bind_ret, bind_ret.
  assert (Hlen : length (replace_char 84 32 (take 16 s)) <= 16)
    by (rewrite replace_char_length, length_take; lia).
  assert (Hgone : 84%N ∉ replace_char 84 32 (take 16 s))
    by (by apply replace_char_gone).
  destruct (dict_get d (lit "bodyPreview") (PStr [])) as [| | | |p|l|d'];
    try (left; by eexists); right; cbn [slice_to]; rewrite bind_ret;
    by eexists _, _, _, _.
Qed.

Lemma print_email_outcomes (w : world) (email : pyval) :
  (result (print_email w email) = Ok tt
   /\ length (printed (print_email w email)) = 5)
  \/ (exists e, result (print_email w email) = Raise e
        /\ length (printed (print_email w email)) <= 3
        /\ (e <> UnicodeEncodeError -> printed (print_email w email) = [])).
Proof.
  destruct (print_email_shape w email)
    as [[e ->]|(name & subject & received & preview & _ & _ & ->)].
  - right. exists e. cbn. split; [done|]. split; [lia | done].
  - destruct (print_fields_cases (lit "From: " ++ name) (lit "Subject: " ++ subject)
                (lit "Received: " ++ received)
                (lit "Preview: " ++ preview ++ lit "...") rule_line)
      as [->|(k & Hk & ->)]; [by left|].
    right. exists UnicodeEncodeError. split; [done|]. split; [|done].
    rewrite printed_fmap_print, length_take. cbn [length]. lia.
Qed.


Lemma print_email_result (w : world) (email : pyval) :
  result (print_email w email) = Ok tt
  \/ exists e, result (print_email w email) = Raise e.
Proof.
  destruct (print_email_outcomes w email) as [[H _]|(e & H & _)];
    [by left | right; by exists e].
Qed.

(** ** The loop over the listing *)

Lemma bind_assoc {A B C} (m : io A) (k : A -> io B) (k' : B -> io C) :
  (m ≫= k) ≫= k' = m ≫= (fun a => k a ≫= k').
Proof.
  destruct m as [t [a|c|e]]; [|done..]. rewrite !bind_ok.
  destruct (k a) as [t' [b|c|e]]; [|done..]. rewrite !bind_ok.
  cbn [trace result fst snd]. by rewrite bind_ok, app_assoc.
Qed.

Lemma for_each_app {A} (body : A -> io unit) (l1 l2 : list A) :
  for_each body (l1 ++ l2) = (for_each body l1 ;; for_each body l2).
Proof.
  induction l1 as [|x l1 IH]; cbn [for_each app].
  - by rewrite bind_ret.
  - rewrite IH. symmetry. apply bind_assoc.
Qed.

Lemma for_each_all_ok {A} (body : A -> io unit) (l : list A) :
  Forall (fun x => result (body x) = Ok tt) l ->
  for_each body l = (concat ((fun x => trace (body x)) <$> l), Ok tt).
Proof.
  induction 1 as [|x l Hx _ IH]; [done|]. cbn [for_each].
  rewrite IH, (io_eta (body x)), Hx, bind_ok. done.
Qed.

Lemma print_email_five (w : world) (email : pyval) :
  result (print_email w email) = Ok tt ->
  length (printed (print_email w email)) = 5.
Proof.
  intros Hok. destruct (print_email_outcomes w email) as [[_ H]|(e & H & _)];
    [done | congruence].
Qed.

(** ** Exit status *)

Lemma exits_bind {A B} (m : io A) (k : A -> io B) :
  exits_with_1 (result m) -> (forall a, exits_with_1 (result (k a))) ->
  exits_with_1 (result (m ≫= k)).
Proof.
  intros Hm Hk. rewrite result_bind. destruct (result m) as [a|c|e]; [apply Hk| |done].
  intros c' [= <-]. by apply Hm.
Qed.

Lemma exits_print_email (w : world) (email : pyval) :
  exits_with_1 (result (print_email w email)).
Proof. destruct (print_email_result w email) as [->|[e ->]]; by intros c. Qed.

Lemma exits_for_each {A} (body : A -> io unit) (l : list A) :
  (forall x, exits_with_1 (result (body x))) -> exits_with_1 (result (for_each body l)).
Proof.
  intros H. induction l as [|x l IH]; cbn [for_each]; [by intros c|].
  apply exits_bind; auto.
Qed.

Lemma exits_present (w : world) (emails : pyval) :
  exits_with_1 (result (present w emails)).
Proof.
  unfold present. destruct (negb _); [by intros c|].
  apply exits_bind; [destruct emails; by intros c | intros n].
  apply exits_bind; [by intros c | intros _].
  apply exits_bind; [destruct emails; by intros c | intros items].
  apply exits_for_each, exits_print_email.
Qed.

Lemma exits_main (w : world) : exits_with_1 (result (main w)).
Proof.
  destruct (mailbox_arg w) as [m|] eqn:Harg;
    [|rewrite main_usage by (by left); by intros c [= <-]].
  destruct (decide (m = [])) as [->|Hm];
    [rewrite main_usage by (by right); by intros c [= <-]|].
  rewrite (main_report _ _ Harg Hm), report_present.
  apply exits_bind; [by intros c | intros _].
  apply exits_bind; [|intros creds].
  { rewrite get_credentials_cases. destruct (subprocess_run _ _) as [e|c0]; [by intros c|].
    destruct (negb _); [by intros c [= <-]|]. destruct (json_loads _ _); by intros c. }
  apply exits_bind; [|intros token].
  { rewrite get_token_cases.
    destruct creds as [| | | | | |d]; try by intros c.
    destruct (d !! lit "tenant_id"); [|by intros c].
    destruct (d !! lit "client_id"); [|by intros c].
    destruct (d !! lit "client_secret"); [|by intros c]. cbn zeta.
    destruct (requests_post _ _ _) as [e|r]; [by intros c|].
    destruct (negb _); [by intros c [= <-]|].
    destruct (json r) as [[| | | | | |body]|]; try by intros c.
    destruct (body !! _); by intros c. }
  apply exits_bind; [|intros emails; apply exits_present].
  rewrite check_emails_cases. cbn zeta.
  destruct (requests_get _ _ _ _) as [e|r]; [by intros c|].
  destruct (negb _); [by intros c [= <-]|].
  destruct (json r) as [[]|]; by intros c.
Qed.

(** X13. Whatever the outside world does, the process ends with status 0 or
    1, and with 0 exactly when [main] returns normally; every [sys.exit] the
    script performs is [sys.exit(1)]. *)
Theorem main_exit_status (w : world) :
  (exit_status (main w) = 0%Z \/ exit_status (main w) = 1%Z)
  /\ (exit_status (main w) = 0%Z <-> result (main w) = Ok tt)
  /\ (forall c, result (main w) = Exit c -> c = 1%Z).
Proof.
  pose proof (exits_main w) as H. unfold exit_status.
  destruct (result (main w)) as [[]|c|e].
  - split; [by left|]. split; [done | apply H].
  - rewrite (H c eq_refl). split; [by right|]. split; [done | by intros c' [= <-]].
  - split; [by right|]. split; [done | done].
Qed.

(** ** The report of a non-empty listing (lines 94-107) *)

Lemma printed_app {A B C} (t1 t2 : list event)
    (o : outcome A) (o1 : outcome B) (o2 : outcome C) :
  printed (t1 ++ t2, o) = printed (t1, o1) ++ printed (t2, o2).
Proof. unfold printed. cbn [trace fst]. apply omap_app. Qed.

Lemma printed_entries (w : world) (emails : list pyval) :
  Forall (fun e => result (print_email w e) = Ok tt) emails ->
  printed (concat ((fun e => trace (print_email w e)) <$> emails), Ok tt)
    = concat ((fun e => printed (print_email w e)) <$> emails)
  /\ length (concat ((fun e => printed (print_email w e)) <$> emails))
     = 5 * length emails.
Proof.
  induction 1 as [|e emails He _ [IH1 IH2]]; [done|].
  cbn [fmap list_fmap concat length].
  rewrite (printed_app _ _ _ (Ok tt) (Ok tt)), IH1, length_app, IH2.
  rewrite (print_email_five _ _ He). split; [done | lia].
Qed.

(** X14. The loop stops at the first message whose body raises: the entries
    of the messages before it have been printed in full, five lines each,
    and nothing is printed for any later message.  The failing message itself
    adds nothing, unless it fails on a field that the stream cannot encode,
    and then at most the three lines printed before that field. *)
Theorem loop_stops_at_first_bad_message
    (w : world) (good rest : list pyval) (bad : pyval) (e : exn) :
  Forall (fun m => result (print_email w m) = Ok tt) good ->
  result (print_email w bad) = Raise e ->
  result (for_each (print_email w) (good ++ bad :: rest)) = Raise e
  /\ printed (for_each (print_email w) (good ++ bad :: rest))
     = concat ((fun m => printed (print_email w m)) <$> good)
         ++ printed (print_email w bad)
  /\ length (printed (for_each (print_email w) (good ++ bad :: rest)))
     = 5 * length good + length (printed (print_email w bad))
  /\ length (printed (print_email w bad)) <= 3
  /\ (e <> UnicodeEncodeError -> printed (print_email w bad) = []).
Proof.
  intros Hgood Hbad.
  destruct (printed_entries w good Hgood) as [Hp Hl].
  assert (Hrun : for_each (print_email w) (good ++ bad :: rest)
    = (concat ((fun m => trace (print_email w m)) <$> good)
         ++ trace (print_email w bad), Raise e)).
  { rewrite for_each_app, (for_each_all_ok _ _ Hgood), bind_ok.
    by rewrite (for_each_raise _ _ _ _ _
                  (eq_trans (io_eta (print_email w bad))
                     (f_equal (pair (trace (print_email w bad))) Hbad))). }
  assert (Hpr : printed (for_each (print_email w) (good ++ bad :: rest))
    = concat ((fun m => printed (print_email w m)) <$> good)
        ++ printed (print_email w bad)).
  { rewrite Hrun, (printed_app _ _ _ (Ok tt) (Ok tt)), Hp. done. }
  split; [by rewrite Hrun|]. split; [exact Hpr|].
  split; [by rewrite Hpr, length_app, Hl|].
  destruct (print_email_outcomes w bad) as [[H _]|(e' & H & Hle & Hnone)];
    [congruence|].
  assert (e' = e) as -> by congruence. done.
Qed.




Lemma print_email_not_dict (w : world) (v : pyval) :
  (forall d : dict, v <> PDict d) -> print_email w v = ([], Raise TypeError).
Proof. intros H. destruct v; try done. by destruct (H d). Qed.


(** ** The shown timestamp and preview (lines 100-106) *)

Lemma print_email_shown
    (w : world) (d f s : dict) (address : pyval) (stamp preview : pystr) :
  d !! lit "from" = Some (PDict f) ->
  f !! lit "emailAddress" = Some (PDict s) ->
  s !! lit "address" = Some address ->
  d !! lit "receivedDateTime" = Some (PStr stamp) ->
  d !! lit "bodyPreview" = Some (PStr preview)
    \/ (d !! lit "bodyPreview" = None /\ preview = []) ->
  result (print_email w (PDict d)) = Ok tt ->
  printed (print_email w (PDict d))
  = [lit "From: " ++ py_str w (default address (s !! lit "name"));
     lit "Subject: "
       ++ py_str w (default (PStr (lit "(no subject)")) (d !! lit "subject"));
     lit "Received: " ++ replace_char 84 32 (take 16 stamp);
     lit "Preview: " ++ take 80 preview ++ lit "...";
     rule_line].
Proof.
  intros Hfrom Hsender Haddr Hstamp Hprev.
  rewrite (print_email_steps _ _ _ _ _ _ _ Hfrom Hsender Haddr Hstamp Hprev).
  destruct (print_fields_cases
              (lit "From: " ++ py_str w (default address (s !! lit "name")))
              (lit "Subject: "
               ++ py_str w (default (PStr (lit "(no subject)")) (d !! lit "subject")))
              (lit "Received: " ++ replace_char 84 32 (take 16 stamp))
              (lit "Preview: " ++ take 80 preview ++ lit "...") rule_line)
    as [->|(k & _ & ->)]; done.
Qed.

(** X17. When an entry is printed, its preview is cut to 80 characters and
    the three dots are added whether or not anything was cut: the [Preview:]
    line has 12 characters more than the shown part of the preview, at most
    92 in all, and a preview of at most 80 characters appears whole. *)
Theorem preview_line_bound
    (w : world) (d f s : dict) (address : pyval) (stamp preview : pystr) :
  d !! lit "from" = Some (PDict f) ->
  f !! lit "emailAddress" = Some (PDict s) ->
  s !! lit "address" = Some address ->
  d !! lit "receivedDateTime" = Some (PStr stamp) ->
  d !! lit "bodyPreview" = Some (PStr preview)
    \/ (d !! lit "bodyPreview" = None /\ preview = []) ->
  result (print_email w (PDict d)) = Ok tt ->
  exists line,
    printed (print_email w (PDict d)) !! 3 = Some line
    /\ length line = 12 + min 80 (length preview)
    /\ length line <= 92
    /\ (length preview <= 80 -> line = lit "Preview: " ++ preview ++ lit "...").
Proof.
  intros Hfrom Hsender Haddr Hstamp Hprev Hok.
  rewrite (print_email_shown _ _ _ _ _ _ _ Hfrom Hsender Haddr Hstamp Hprev Hok).
  eexists. split; [reflexivity|].
  assert (Hlen : length (lit "Preview: " ++ take 80 preview ++ lit "...")
                 = 12 + min 80 (length preview)).
  { rewrite !length_app, length_take.
    change (length (lit "Preview: ")) with 9. change (length (lit "...")) with 3.
    lia. }
  split; [exact Hlen|]. split; [rewrite Hlen; lia|].
  intros Hle. by rewrite take_ge.
Qed.

(** X18. When an entry is printed and its timestamp has the ISO form, ten
    characters of date, [T], five characters of hour and minute, then
    anything, the timestamp is shown as the date, a space, and the hour and
    minute: seconds, fractions and zone are dropped. *)
Theorem received_line_iso
    (w : world) (d f s : dict) (address : pyval) (date hm rest preview : pystr) :
  d !! lit "from" = Some (PDict f) ->
  f !! lit "emailAddress" = Some (PDict s) ->
  s !! lit "address" = Some address ->
  d !! lit "receivedDateTime" = Some (PStr (date ++ [84%N] ++ hm ++ rest)) ->
  d !! lit "bodyPreview" = Some (PStr preview)
    \/ (d !! lit "bodyPreview" = None /\ preview = []) ->
  result (print_email w (PDict d)) = Ok tt ->
  length date = 10 -> length hm = 5 ->
  84%N ∉ date -> 84%N ∉ hm ->
  printed (print_email w (PDict d)) !! 2
  = Some (lit "Received: " ++ date ++ [32%N] ++ hm).
Proof.
  intros Hfrom Hsender Haddr Hstamp Hprev Hok Hd Hh Hnd Hnh.
  rewrite (print_email_shown _ _ _ _ _ _ _ Hfrom Hsender Haddr Hstamp Hprev Hok).
  cbn [lookup list_lookup]. by rewrite (received_minute_precision _ _ _ Hd Hh Hnd Hnh).
Qed.

(** ** Command line: what is ignored (line 77) *)

(** X19. Only the first argument matters: the script name and any further
    arguments have no effect on the run. *)
Theorem extra_arguments_ignored
    (w : world) (script script' m : pystr) (extra : list pystr) :
  main (with_argv (script :: m :: extra) w) = main (with_argv [script'; m] w).
Proof.
  unfold main, mailbox_arg.
  cbn [argv with_argv length Nat.ltb Nat.leb lookup list_lookup].
  by destruct m.
Qed.

(** A subject that is a lone surrogate: the [From:] line is printed, the
    [Subject:] line cannot be encoded, and the entry ends there. *)
Lemma lone_surrogate_cuts_entry :
  print_email (happy_world listing_empty) (PDict surrogate_message)
  = ([EvPrint (lit "From: Bob")], Raise UnicodeEncodeError).
Proof. vm_compute. reflexivity. Qed.

(** ** The further properties on sample worlds *)




Lemma get_credentials_ignores_whitespace_sample :
  get_credentials (happy_world listing_empty)
  = ([EvRun security_cmd], Ok (PDict bundle)).
Proof.
  exact (get_credentials_ignores_whitespace (happy_world listing_empty)
           {| returncode := 0; stdout := bundle_text ++ [newline] |}
           [] bundle_text [newline]
           eq_refl eq_refl eq_refl
           ltac:(repeat constructor) ltac:(repeat constructor)
           ltac:(intros x [= <-]; reflexivity)
           ltac:(intros x [= <-]; reflexivity)).
Defined.

Lemma bundle_read_in_order_sample :
  get_token fieldless_world (PDict ∅) = ([], Raise (KeyError (lit "tenant_id")))
  /\ get_token fieldless_world (PList []) = ([], Raise TypeError).
Proof.
  split.
  - pose proof (bundle_read_in_order fieldless_world (PDict ∅)) as [_ H].
    exact (proj1 (H ∅ eq_refl) eq_refl).
  - pose proof (bundle_read_in_order fieldless_world (PList [])) as [H _].
    exact (H ltac:(discriminate)).
Defined.

Lemma token_reply_without_token_sample :
  result (get_token tokenless_world (PDict bundle))
  = Raise (KeyError (lit "access_token")).
Proof.
  pose proof (token_reply_without_token tokenless_world bundle
                (PStr (lit "contoso")) (PStr (lit "app")) (PStr (lit "s3cret"))
                token_empty_object eq_refl eq_refl eq_refl eq_refl eq_refl)
    as (_ & _ & H & _).
  exact (H ∅ eq_refl eq_refl).
Defined.

Lemma token_request_contents_sample :
  exists (d : dict) (tenant : pyval),
    d !! lit "tenant_id" = Some tenant
    /\ token_url (happy_world listing_empty) (PStr (lit "contoso"))
       = lit "https://login.microsoftonline.com/"
           ++ py_str (happy_world listing_empty) tenant
           ++ lit "/oauth2/v2.0/token".
Proof.
  pose proof (token_request_contents (happy_world listing_empty) (PDict bundle)
                (token_url (happy_world listing_empty) (PStr (lit "contoso")))
                (token_form (PStr (lit "app")) (PStr (lit "s3cret")))
                (list_elem_of_here _ _))
    as (d & tenant & cid & cs & _ & Ht & _ & _ & Hurl & _).
  exists d, tenant. exact (conj Ht Hurl).
Defined.

Lemma listing_reply_unusable_sample :
  check_emails
    (sample_world sample_args (keychain bundle_text) (inr token_ok)
       (inr listing_html))
    (lit "me@x.com") (PStr (lit "T")) true 10
  = ([EvGet (messages_url (lit "me@x.com"))
        (auth_headers
           (sample_world sample_args (keychain bundle_text) (inr token_ok)
              (inr listing_html)) (PStr (lit "T")))
        (query_params true 10)], Raise JSONDecodeError).
Proof.
  pose proof (listing_reply_unusable
                (sample_world sample_args (keychain bundle_text) (inr token_ok)
                   (inr listing_html))
                (lit "me@x.com") (PStr (lit "T")) true 10 listing_html
                eq_refl eq_refl)
    as [H _].
  exact (H eq_refl).
Defined.

Lemma listing_request_uses_token_sample :
  exists (m : pystr) (token : pyval),
    argv (happy_world listing_empty) !! 1 = Some m
    /\ auth_headers (happy_world listing_empty) (PStr (lit "T"))
         !! lit "Authorization"
       = Some (PStr (lit "Bearer " ++ py_str (happy_world listing_empty) token)).
Proof.
  assert (Hin : EvGet (messages_url (lit "me@x.com"))
                  (auth_headers (happy_world listing_empty) (PStr (lit "T")))
                  (query_params true 10)
                ∈ trace (main (happy_world listing_empty))).
  { change (trace (main (happy_world listing_empty)))
      with [EvPrint (checking_line (lit "me@x.com"));
            EvRun security_cmd;
            EvPost (token_url (happy_world listing_empty) (PStr (lit "contoso")))
              (token_form (PStr (lit "app")) (PStr (lit "s3cret")));
            EvGet (messages_url (lit "me@x.com"))
              (auth_headers (happy_world listing_empty) (PStr (lit "T")))
              (query_params true 10);
            EvPrint no_unread_line].
    do 3 apply list_elem_of_further. apply list_elem_of_here. }
  pose proof (listing_request_uses_token (happy_world listing_empty) _ _ _ Hin)
    as (m & _ & _ & _ & token & Hargv & _ & _ & _ & _ & Hh & _).
  exists m, token. exact (conj Hargv Hh).
Defined.

Lemma loop_stops_at_first_bad_message_sample :
  length (printed (for_each (print_email (happy_world listing_empty))
                     ([PDict bob_message] ++ PDict surrogate_message
                        :: [PDict bob_message]))) = 5 * 1 + 1.
Proof.
  pose proof (loop_stops_at_first_bad_message (happy_world listing_empty)
                [PDict bob_message] [PDict bob_message] (PDict surrogate_message)
                UnicodeEncodeError
                ltac:(repeat constructor) eq_refl)
    as (_ & _ & H & _).
  exact H.
Defined.



Lemma preview_line_bound_sample :
  exists line,
    printed (print_email (happy_world listing_empty) (PDict bob_message)) !! 3
      = Some line
    /\ line = lit "Preview: Hello world...".
Proof.
  pose proof (preview_line_bound (happy_world listing_empty) bob_message bob_from
                bob_sender (PStr (lit "bob@x.com"))
                (lit "2024-01-01T12:34:56Z") (lit "Hello world")
                eq_refl eq_refl eq_refl eq_refl (or_introl eq_refl) eq_refl)
    as (line & Hl & _ & _ & Hw).
  exists line. split; [exact Hl | apply Hw; vm_compute; lia].
Defined.

Lemma received_line_iso_sample :
  printed (print_email (happy_world listing_empty) (PDict bob_message)) !! 2
  = Some (lit "Received: 2024-01-01 12:34").
Proof.
  assert (Hd : 84%N ∉ lit "2024-01-01")
    by (apply (bool_decide_unpack _); vm_compute; exact I).
  assert (Hh : 84%N ∉ lit "12:34")
    by (apply (bool_decide_unpack _); vm_compute; exact I).
  exact (received_line_iso (happy_world listing_empty) bob_message bob_from
           bob_sender (PStr (lit "bob@x.com"))
           (lit "2024-01-01") (lit "12:34") (lit ":56Z") (lit "Hello world")
           eq_refl eq_refl eq_refl eq_refl (or_introl eq_refl) eq_refl
           eq_refl eq_refl Hd Hh).
Defined.
